(** * PyBoof camera calibration wrapper ([pyboof/calib.py])

    A shallow embedding of the Python module [pyboof.calib] and the
    properties of its camera models, lens-distortion dispatch and
    calibration front ends.

    Conventions of the embedding.
    - A Python call that may raise returns a [result]: [Ok v] for a normal
      return, [Err e] for a raised exception.
    - Arguments and attributes have the types that the annotations and
      docstrings of the module give them. The numeric attributes of the
      camera classes hold Python [int]s (the constructors assign the
      literal [0]) or [float]s (what the Java getters deliver); they are
      [pynum]s, floats being IEEE binary64. Image sizes, point indices and
      term counts are [int]s, on which the conversion [int(...)] of the
      source is the identity; pixel coordinates are [float]s, on which
      [float(...)] is the identity.
    - Objects of the wrapped Java library are data: the value a fresh Java
      object has once the wrapper's setters have run on it. A Java call
      that the statements depend on may throw and returns a [result];
      constructors and setters are taken to return. *)

From Stdlib Require Import ZArith Floats String Ascii List Bool Lia.
From stdpp Require Import base option list strings pretty gmap.

Local Open Scope string_scope.
Local Open Scope Z_scope.

(** ** Exceptions and the error monad *)

(** The built-in exception classes the module can raise, with their
    message. *)
Inductive exn : Type :=
  | RuntimeError (msg : string)
  | OverflowError (msg : string)
  | IndexError (msg : string)
  | AttributeError (msg : string)
  | Py4JJavaError (msg : string).

(** The name of an exception's class, as [type(e).__name__] gives it. *)
Definition exn_class_name (e : exn) : string :=
  match e with
  | RuntimeError _ => "RuntimeError"
  | OverflowError _ => "OverflowError"
  | IndexError _ => "IndexError"
  | AttributeError _ => "AttributeError"
  | Py4JJavaError _ => "Py4JJavaError"
  end.

Inductive result (A : Type) : Type :=
  | Ok (v : A)
  | Err (e : exn).
Arguments Ok {A} v.
Arguments Err {A} e.

Definition bind {A B : Type} (r : result A) (k : A -> result B) : result B :=
  match r with
  | Ok v => k v
  | Err e => Err e
  end.

Notation "'let!' x ':=' r 'in' k" := (bind r (fun x => k))
  (at level 10, x name, r at level 100, k at level 200).

Definition is_ok {A : Type} (r : result A) : bool :=
  match r with Ok _ => true | Err _ => false end.

(** ** Python numbers *)

Inductive pynum : Type :=
  | PyInt (z : Z)
  | PyFloat (x : float).

(** [float(n)]: the identity on a float; an int is rounded to the nearest
    binary64 (ties to even), and raises [OverflowError] when that is out of
    range. *)
Definition py_float (n : pynum) : result float :=
  match n with
  | PyFloat x => Ok x
  | PyInt z =>
      match binary_normalize prec emax z 0 false with
      | S754_infinity _ => Err (OverflowError "int too large to convert to float")
      | sf => Ok (SF2Prim sf)
      end
  end.

(** [n != 0]. For a float this is IEEE inequality: both zeros compare equal
    to [0], a NaN compares unequal to everything. *)
Definition py_ne_zero (n : pynum) : bool :=
  match n with
  | PyInt z => negb (z =? 0)
  | PyFloat x => negb (PrimFloat.eqb x PrimFloat.zero)
  end.

(** [mapM] for [result]: convert every element, left to right, stopping at
    the first exception. *)
Fixpoint map_result {A B : Type} (f : A -> result B) (l : list A)
  : result (list B) :=
  match l with
  | [] => Ok []
  | a :: l' =>
      let! b := f a in
      let! bs := map_result f l' in
      Ok (b :: bs)
  end.

(** ** The wrapped Java camera classes

    [boofcv.struct.calib.*] as the wrapper sees them: the bean properties
    it reads with getters and writes with setters. *)
Module Java.

Record CameraPinhole : Type := mkPinhole {
  fx : float; fy : float; skew : float; cx : float; cy : float;
  width : Z; height : Z
}.

Record CameraPinholeBrown : Type := mkBrown {
  pinhole : CameraPinhole;
  radial : option (list float);
  t1 : float; t2 : float
}.

Record CameraUniversalOmni : Type := mkOmni {
  brown : CameraPinholeBrown;
  mirrorOffset : float
}.

Record CameraKannalaBrandt : Type := mkKB {
  kb_pinhole : CameraPinhole;
  symmetric : list float;
  kb_radial : list float;
  radialTrig : list float;
  tangent : list float;
  tangentTrig : list float
}.

(** A Java camera model handed to a lens-distortion constructor or
    returned by a solver. *)
Inductive camera : Type :=
  | Brown (m : CameraPinholeBrown)
  | Omni (m : CameraUniversalOmni)
  | KannalaBrandt (m : CameraKannalaBrandt).

Definition zero_pinhole : CameraPinhole :=
  mkPinhole 0%float 0%float 0%float 0%float 0%float 0 0.

(** [new CameraPinholeBrown()]: every number zero, no radial array. *)
Definition new_CameraPinholeBrown : CameraPinholeBrown :=
  mkBrown zero_pinhole None 0%float 0%float.

(** [new CameraUniversalOmni(numRadial)]: a zeroed radial array of the
    given length. *)
Definition new_CameraUniversalOmni (numRadial : nat) : CameraUniversalOmni :=
  mkOmni (mkBrown zero_pinhole (Some (replicate numRadial 0%float))
                  0%float 0%float) 0%float.

(** The lens-distortion engines under [boofcv.alg.distort]. *)
Inductive LensDistortion : Type :=
  | LensDistortionPinhole (model : camera)
  | LensDistortionBrown (model : camera)
  | LensDistortionUniversalOmni (model : camera)
  | LensDistortionKannalaBrandt (model : camera).

End Java.

(** ** The class hierarchy *)

Inductive pyclass : Type :=
  | Cls_object
  | Cls_CameraModel
  | Cls_CameraPinhole
  | Cls_CameraBrown
  | Cls_CameraUniversalOmni
  | Cls_CameraKannalaBrandt
  | Cls_StereoParameters
  | Cls_other (module name : string).

Global Instance pyclass_eq_dec : EqDecision pyclass.
Proof. solve_decision. Defined.

(** The method resolution order that the [class X(Y)] headers induce. *)
Definition mro (c : pyclass) : list pyclass :=
  match c with
  | Cls_object => [Cls_object]
  | Cls_CameraModel => [Cls_CameraModel; Cls_object]
  | Cls_CameraPinhole => [Cls_CameraPinhole; Cls_CameraModel; Cls_object]
  | Cls_CameraBrown =>
      [Cls_CameraBrown; Cls_CameraPinhole; Cls_CameraModel; Cls_object]
  | Cls_CameraUniversalOmni =>
      [Cls_CameraUniversalOmni; Cls_CameraBrown; Cls_CameraPinhole;
       Cls_CameraModel; Cls_object]
  | Cls_CameraKannalaBrandt =>
      [Cls_CameraKannalaBrandt; Cls_CameraPinhole; Cls_CameraModel; Cls_object]
  | Cls_StereoParameters => [Cls_StereoParameters; Cls_CameraModel; Cls_object]
  | Cls_other m n => [Cls_other m n; Cls_object]
  end.

Definition issubclass (c d : pyclass) : bool := bool_decide (d ∈ mro c).

(** [cls.__module__] and [cls.__name__]. *)
Definition class_module (c : pyclass) : string :=
  match c with
  | Cls_object => "builtins"
  | Cls_other m _ => m
  | _ => "pyboof.calib"
  end.

Definition class_name (c : pyclass) : string :=
  match c with
  | Cls_object => "object"
  | Cls_CameraModel => "CameraModel"
  | Cls_CameraPinhole => "CameraPinhole"
  | Cls_CameraBrown => "CameraBrown"
  | Cls_CameraUniversalOmni => "CameraUniversalOmni"
  | Cls_CameraKannalaBrandt => "CameraKannalaBrandt"
  | Cls_StereoParameters => "StereoParameters"
  | Cls_other _ n => n
  end.

(** [str(cls)], as ["{}".format(type(x))] renders it: the module is left
    out for a built-in class. *)
Definition class_str (c : pyclass) : string :=
  "<class '" +:+
  (if String.eqb (class_module c) "builtins" then class_name c
   else class_module c +:+ "." +:+ class_name c) +:+ "'>".

(** ** Text of numbers: [format] and [str] *)

(** ['{:d}'.format(z)] and [str(z)] for an int: its decimal numeral. *)
Definition format_d (z : Z) : string := pretty z.

(** Six decimals of the non-negative rational [num / den], rounded to
    nearest with ties to even, as C's [%f] does on an exact binary value. *)
Definition fixed6 (negative : bool) (num den : Z) : string :=
  let scaled := num * 10 ^ 6 in
  let q := scaled / den in
  let r := scaled mod den in
  let n := if (den <? 2 * r) || ((den =? 2 * r) && Z.odd q) then q + 1 else q in
  (if negative then "-" else "") +:+ pretty (n / 10 ^ 6) +:+ "." +:+
  String.substring 1 6 (pretty (10 ^ 6 + n mod 10 ^ 6)).

(** ['{:f}'.format(x)] for a float. *)
Definition float_format_f (x : float) : string :=
  match Prim2SF x with
  | S754_zero s => fixed6 s 0 1
  | S754_infinity s => if s then "-inf" else "inf"
  | S754_nan => "nan"
  | S754_finite s m e =>
      if 0 <=? e then fixed6 s (Z.pos m * 2 ^ e) 1
      else fixed6 s (Z.pos m) (2 ^ (- e))
  end.

(** ['{:f}'.format(n)]: an int is converted with [float(n)] first. *)
Definition format_f (n : pynum) : result string :=
  let! x := py_float n in Ok (float_format_f x).

(** [str(n)]. An int prints as its decimal numeral. The text of a float is
    Python's shortest round-tripping numeral; the embedding takes it as the
    function [float_repr] and every statement below holds whatever it is. *)
Definition py_str (float_repr : float -> string) (n : pynum) : string :=
  match n with
  | PyInt z => pretty z
  | PyFloat x => float_repr x
  end.

(** [str(l)] for a list of numbers (elements separated by a comma and a
    space) and [str(None)]. *)
Definition list_str (float_repr : float -> string) (l : list pynum) : string :=
  "[" +:+ String.concat ", " (map (py_str float_repr) l) +:+ "]".

Definition option_list_str (float_repr : float -> string)
    (o : option (list pynum)) : string :=
  match o with
  | None => "None"
  | Some l => list_str float_repr l
  end.

(** ** The camera model classes *)

(** Modelled from the spec: [python_to_java_double_array] is defined in
    [pyboof.common], which is not among the sources. It marshals a Python
    list of numbers into a Java [double[]], each number stored as a double,
    as the element store [jarray[i] = x] of py4j does. *)
Definition python_to_java_double_array (l : list pynum) : result (list float) :=
  map_result py_float l.

Module CameraPinhole.

Record t : Type := mk {
  fx : pynum; fy : pynum; skew : pynum; cx : pynum; cy : pynum;
  width : Z; height : Z
}.

(** The attributes [__init__] assigns when no Java object is given. *)
Definition default : t :=
  mk (PyInt 0) (PyInt 0) (PyInt 0) (PyInt 0) (PyInt 0) 0 0.


Definition set_image_shape (self : t) (width height : Z) : t :=
  mk (fx self) (fy self) (skew self) (cx self) (cy self) width height.

Definition set (self orig : t) : t :=
  mk (fx orig) (fy orig) (skew orig) (cx orig) (cy orig)
     (width orig) (height orig).

Definition set_from_boof (self : t) (boof_intrinsic : Java.CameraPinhole) : t :=
  mk (PyFloat (Java.fx boof_intrinsic)) (PyFloat (Java.fy boof_intrinsic))
     (PyFloat (Java.skew boof_intrinsic))
     (PyFloat (Java.cx boof_intrinsic)) (PyFloat (Java.cy boof_intrinsic))
     (Java.width boof_intrinsic) (Java.height boof_intrinsic).

Definition __init__ (java_object : option Java.CameraPinhole) : t :=
  match java_object with
  | None => default
  | Some j => set_from_boof default j
  end.

(** The setter calls of [convert_to_boof] on a storage: they overwrite its
    whole pinhole part, in the order of the source (fx, fy, cx, cy, skew,
    width, height), each number converted with [float(...)]. *)
Definition convert_to_boof_onto (self : t) : result Java.CameraPinhole :=
  let! jfx := py_float (fx self) in
  let! jfy := py_float (fy self) in
  let! jcx := py_float (cx self) in
  let! jcy := py_float (cy self) in
  let! jskew := py_float (skew self) in
  Ok (Java.mkPinhole jfx jfy jskew jcx jcy (width self) (height self)).

(** [convert_to_boof()] with no storage: a fresh [CameraPinholeBrown]. *)
Definition convert_to_boof (self : t) : result Java.CameraPinholeBrown :=
  let storage := Java.new_CameraPinholeBrown in
  let! jpin := convert_to_boof_onto self in
  Ok (Java.mkBrown jpin (Java.radial storage) (Java.t1 storage)
                   (Java.t2 storage)).

(** The run [fx={:f} fy={:f} skew={:f} cx={:f} cy={:f} | width={:d}
    height={:d}] that every [__str__] format string of the module
    contains, filled from [self]. *)
Definition format_intrinsics (self : t) : result string :=
  let! sfx := format_f (fx self) in
  let! sfy := format_f (fy self) in
  let! sskew := format_f (skew self) in
  let! scx := format_f (cx self) in
  let! scy := format_f (cy self) in
  Ok ("fx=" +:+ sfx +:+ " fy=" +:+ sfy +:+ " skew=" +:+ sskew +:+
      " cx=" +:+ scx +:+ " cy=" +:+ scy +:+
      " | width=" +:+ format_d (width self) +:+
      " height=" +:+ format_d (height self)).

Definition __str__ (self : t) : result string :=
  let! body := format_intrinsics self in
  Ok ("Pinhole{ " +:+ body +:+ "}").

End CameraPinhole.

Module CameraBrown.

Record t : Type := mk {
  base : CameraPinhole.t;
  radial : option (list pynum);
  t1 : pynum; t2 : pynum
}.

Definition default : t := mk CameraPinhole.default None (PyInt 0) (PyInt 0).

Definition set_distortion (self : t) (radial : option (list pynum))
    (t1 t2 : pynum) : t :=
  mk (base self) radial t1 t2.

Definition set (self orig : t) : t :=
  mk (CameraPinhole.set (base self) (base orig))
     (radial orig) (t1 orig) (t2 orig).

Definition set_from_boof (self : t) (boof_intrinsic : Java.CameraPinholeBrown)
  : t :=
  mk (CameraPinhole.set_from_boof (base self) (Java.pinhole boof_intrinsic))
     (match Java.radial boof_intrinsic with
      | None => None
      | Some jarray => Some (map PyFloat jarray)
      end)
     (PyFloat (Java.t1 boof_intrinsic)) (PyFloat (Java.t2 boof_intrinsic)).

Definition __init__ (java_object : option Java.CameraPinholeBrown) : t :=
  match java_object with
  | None => default
  | Some j => set_from_boof (set_from_boof default j) j
  end.

(** [convert_to_boof] onto a given storage: the pinhole setters, then
    [setRadial] only when [radial] is not [None], then [setT1], [setT2]. *)
Definition convert_to_boof_onto (self : t) (storage : Java.CameraPinholeBrown)
  : result Java.CameraPinholeBrown :=
  let! jpin := CameraPinhole.convert_to_boof_onto (base self) in
  let! jradial :=
    match radial self with
    | Some r => let! jarray := python_to_java_double_array r in Ok (Some jarray)
    | None => Ok (Java.radial storage)
    end in
  let! jt1 := py_float (t1 self) in
  let! jt2 := py_float (t2 self) in
  Ok (Java.mkBrown jpin jradial jt1 jt2).

Definition convert_to_boof (self : t) : result Java.CameraPinholeBrown :=
  convert_to_boof_onto self Java.new_CameraPinholeBrown.

Definition is_distorted (self : t) : bool :=
  match radial self with Some _ => true | None => false end
  || py_ne_zero (t1 self) || py_ne_zero (t2 self).

Definition __str__ (float_repr : float -> string) (self : t) : result string :=
  let! body := CameraPinhole.format_intrinsics (base self) in
  let out := "Brown{ " +:+ body +:+ " " in
  if is_distorted self then
    Ok (out +:+ " | radial=" +:+ option_list_str float_repr (radial self) +:+
        " t1=" +:+ py_str float_repr (t1 self) +:+
        " t1=" +:+ py_str float_repr (t2 self) +:+ " }")
  else
    Ok (out +:+ "}}").

End CameraBrown.

Module CameraUniversalOmni.

Record t : Type := mk {
  base : CameraBrown.t;
  mirror_offset : pynum
}.

Definition default : t := mk CameraBrown.default (PyInt 0).

Definition set_from_boof (self : t) (boof_intrinsic : Java.CameraUniversalOmni)
  : t :=
  mk (CameraBrown.set_from_boof (base self) (Java.brown boof_intrinsic))
     (PyFloat (Java.mirrorOffset boof_intrinsic)).

Definition __init__ (java_object : option Java.CameraUniversalOmni) : t :=
  match java_object with
  | None => default
  | Some j =>
      mk (base (set_from_boof (set_from_boof default j) j))
         (PyFloat (Java.mirrorOffset j))
  end.

Definition convert_to_boof (self : t) : result Java.CameraUniversalOmni :=
  let! jbrown :=
    CameraBrown.convert_to_boof_onto (base self)
      (Java.brown (Java.new_CameraUniversalOmni 0)) in
  let! jmirror := py_float (mirror_offset self) in
  Ok (Java.mkOmni jbrown jmirror).

Definition is_distorted (self : t) : bool :=
  CameraBrown.is_distorted (base self).

Definition __str__ (float_repr : float -> string) (self : t) : result string :=
  let! body := CameraPinhole.format_intrinsics (CameraBrown.base (base self)) in
  let! smirror := format_f (mirror_offset self) in
  let out := "UniversalOmni{ " +:+ body +:+ " | mirror=" +:+ smirror in
  if is_distorted self then
    Ok (out +:+ " | radial=" +:+
        option_list_str float_repr (CameraBrown.radial (base self)) +:+
        " t1=" +:+ py_str float_repr (CameraBrown.t1 (base self)) +:+
        " t1=" +:+ py_str float_repr (CameraBrown.t2 (base self)) +:+ " }")
  else
    Ok (out +:+ "}}").

End CameraUniversalOmni.

Module CameraKannalaBrandt.

Record t : Type := mk {
  base : CameraPinhole.t;
  symmetric : list pynum;
  radial : list pynum;
  radialTrig : list pynum;
  tangent : list pynum;
  tangentTrig : list pynum
}.

Definition default : t := mk CameraPinhole.default [] [] [] [] [].

Definition set_from_boof (self : t) (boof_intrinsic : Java.CameraKannalaBrandt)
  : t :=
  mk (CameraPinhole.set_from_boof (base self) (Java.kb_pinhole boof_intrinsic))
     (map PyFloat (Java.symmetric boof_intrinsic))
     (map PyFloat (Java.kb_radial boof_intrinsic))
     (map PyFloat (Java.radialTrig boof_intrinsic))
     (map PyFloat (Java.tangent boof_intrinsic))
     (map PyFloat (Java.tangentTrig boof_intrinsic)).

Definition __init__ (java_object : option Java.CameraKannalaBrandt) : t :=
  match java_object with
  | None => default
  | Some j => set_from_boof (set_from_boof default j) j
  end.

Definition convert_to_boof (self : t) : result Java.CameraKannalaBrandt :=
  let! jpin := CameraPinhole.convert_to_boof_onto (base self) in
  let! jsymmetric := python_to_java_double_array (symmetric self) in
  let! jradial := python_to_java_double_array (radial self) in
  let! jradialTrig := python_to_java_double_array (radialTrig self) in
  let! jtangent := python_to_java_double_array (tangent self) in
  let! jtangentTrig := python_to_java_double_array (tangentTrig self) in
  Ok (Java.mkKB jpin jsymmetric jradial jradialTrig jtangent jtangentTrig).

Definition __str__ (float_repr : float -> string) (self : t) : result string :=
  let! body := CameraPinhole.format_intrinsics (base self) in
  let out := "CameraKannalaBrandt{ " +:+ body in
  Ok (out +:+ " | symmetric=" +:+ list_str float_repr (symmetric self) +:+
      " radial=" +:+ list_str float_repr (radial self) +:+
      " radialTrig=" +:+ list_str float_repr (radialTrig self) +:+
      " tangent=" +:+ list_str float_repr (tangent self) +:+
      " tangentTrig=" +:+ list_str float_repr (tangentTrig self) +:+ " }}").

End CameraKannalaBrandt.

(** ** Python objects and dynamic dispatch *)

(** What a caller can pass where the module expects a camera model: an
    instance of one of the camera classes, or an instance of some class
    outside the hierarchy. *)
Inductive pyobject : Type :=
  | Obj_CameraPinhole (c : CameraPinhole.t)
  | Obj_CameraBrown (c : CameraBrown.t)
  | Obj_CameraUniversalOmni (c : CameraUniversalOmni.t)
  | Obj_CameraKannalaBrandt (c : CameraKannalaBrandt.t)
  | Obj_other (module name : string).

Definition type_of (o : pyobject) : pyclass :=
  match o with
  | Obj_CameraPinhole _ => Cls_CameraPinhole
  | Obj_CameraBrown _ => Cls_CameraBrown
  | Obj_CameraUniversalOmni _ => Cls_CameraUniversalOmni
  | Obj_CameraKannalaBrandt _ => Cls_CameraKannalaBrandt
  | Obj_other m n => Cls_other m n
  end.

Definition isinstance (o : pyobject) (c : pyclass) : bool :=
  issubclass (type_of o) c.

Definition no_attribute (o : pyobject) (name : string) : exn :=
  AttributeError ("'" +:+ class_name (type_of o) +:+
                  "' object has no attribute '" +:+ name +:+ "'").

(** [camera_model.convert_to_boof()], resolved on the object's class. *)
Definition convert_to_boof (camera_model : pyobject) : result Java.camera :=
  match camera_model with
  | Obj_CameraPinhole c =>
      let! j := CameraPinhole.convert_to_boof c in Ok (Java.Brown j)
  | Obj_CameraBrown c =>
      let! j := CameraBrown.convert_to_boof c in Ok (Java.Brown j)
  | Obj_CameraUniversalOmni c =>
      let! j := CameraUniversalOmni.convert_to_boof c in Ok (Java.Omni j)
  | Obj_CameraKannalaBrandt c =>
      let! j := CameraKannalaBrandt.convert_to_boof c in Ok (Java.KannalaBrandt j)
  | Obj_other _ _ => Err (no_attribute camera_model "convert_to_boof")
  end.

(** [camera_model.is_distorted()], resolved on the object's class. *)
Definition is_distorted (camera_model : pyobject) : result bool :=
  match camera_model with
  | Obj_CameraBrown c => Ok (CameraBrown.is_distorted c)
  | Obj_CameraUniversalOmni c => Ok (CameraUniversalOmni.is_distorted c)
  | _ => Err (no_attribute camera_model "is_distorted")
  end.

(** ** Lens distortion factories *)

Inductive precision : Type := F32 | F64.

Module JavaTransform.

(** The point transforms a Java lens-distortion object hands out, named
    by the method that builds them. *)
Inductive t : Type :=
  | distort_F32 (self : Java.LensDistortion) (pixel_in pixel_out : bool)
  | distort_F64 (self : Java.LensDistortion) (pixel_in pixel_out : bool)
  | undistort_F32 (self : Java.LensDistortion) (pixel_in pixel_out : bool)
  | undistort_F64 (self : Java.LensDistortion) (pixel_in pixel_out : bool)
  | distortStoP_F32 (self : Java.LensDistortion)
  | distortStoP_F64 (self : Java.LensDistortion)
  | undistortPtoS_F32 (self : Java.LensDistortion)
  | undistortPtoS_F64 (self : Java.LensDistortion).

(** The arithmetic a transform computes in: the suffix of its method. *)
Definition precision_of (x : t) : precision :=
  match x with
  | distort_F32 _ _ _ | undistort_F32 _ _ _
  | distortStoP_F32 _ | undistortPtoS_F32 _ => F32
  | distort_F64 _ _ _ | undistort_F64 _ _ _
  | distortStoP_F64 _ | undistortPtoS_F64 _ => F64
  end.

End JavaTransform.

(** Modelled from the spec: the wrapper classes [Transform2to2],
    [Transform3to2] and [Transform2to3] are defined in [pyboof.ip], which is
    not among the sources. Each holds the Java transform it was built
    from. *)
Inductive Transform : Type :=
  | Transform2to2 (java_obj : JavaTransform.t)
  | Transform3to2 (java_obj : JavaTransform.t)
  | Transform2to3 (java_obj : JavaTransform.t).

Definition transform_java_obj (x : Transform) : JavaTransform.t :=
  match x with
  | Transform2to2 j | Transform3to2 j | Transform2to3 j => j
  end.

Module LensNarrowDistortionFactory.

(** [java_obj] is the attribute that [JavaWrapper.__init__] (of
    [pyboof.common]) sets to the object it is given. *)
Record t : Type := mk { java_obj : Java.LensDistortion; use_32 : bool }.

(** [__init__(self, java_object, use_32=True)]; [None] stands for the
    omitted argument. *)
Definition __init__ (java_object : Java.LensDistortion) (use_32 : option bool) : t :=
  mk java_object (default true use_32).

Definition distort (self : t) (pixel_in pixel_out : bool) : Transform :=
  let java_out :=
    if use_32 self
    then JavaTransform.distort_F32 (java_obj self) pixel_in pixel_out
    else JavaTransform.distort_F64 (java_obj self) pixel_in pixel_out in
  Transform2to2 java_out.

Definition undistort (self : t) (pixel_in pixel_out : bool) : Transform :=
  let java_out :=
    if use_32 self
    then JavaTransform.undistort_F32 (java_obj self) pixel_in pixel_out
    else JavaTransform.undistort_F64 (java_obj self) pixel_in pixel_out in
  Transform2to2 java_out.

End LensNarrowDistortionFactory.

Module LensWideDistortionFactory.

Record t : Type := mk { java_obj : Java.LensDistortion; use_32 : bool }.

Definition __init__ (java_object : Java.LensDistortion) (use_32 : option bool) : t :=
  mk java_object (default true use_32).

Definition distort_s_to_p (self : t) : Transform :=
  let java_out :=
    if use_32 self
    then JavaTransform.distortStoP_F32 (java_obj self)
    else JavaTransform.distortStoP_F64 (java_obj self) in
  Transform3to2 java_out.

Definition undistort_p_to_s (self : t) : Transform :=
  let java_out :=
    if use_32 self
    then JavaTransform.undistortPtoS_F32 (java_obj self)
    else JavaTransform.undistortPtoS_F64 (java_obj self) in
  Transform2to3 java_out.

End LensWideDistortionFactory.

Definition create_narrow_lens_distorter (camera_model : pyobject)
  : result LensNarrowDistortionFactory.t :=
  let! java_obj :=
    if isinstance camera_model Cls_CameraUniversalOmni then
      Err (RuntimeError "CameraUniversalOmni is not a narrow FOV camera model")
    else if isinstance camera_model Cls_CameraPinhole then
      let! boof_model := convert_to_boof camera_model in
      Ok (Java.LensDistortionPinhole boof_model)
    else if isinstance camera_model Cls_CameraBrown then
      let! boof_model := convert_to_boof camera_model in
      let! distorted := is_distorted camera_model in
      if distorted
      then Ok (Java.LensDistortionBrown boof_model)
      else Ok (Java.LensDistortionPinhole boof_model)
    else
      Err (RuntimeError
             ("Unknown camera model " +:+ class_str (type_of camera_model))) in
  Ok (LensNarrowDistortionFactory.__init__ java_obj None).

Definition create_wide_lens_distorter (camera_model : pyobject)
  : result LensWideDistortionFactory.t :=
  let! java_obj :=
    if isinstance camera_model Cls_CameraUniversalOmni then
      let! boof_model := convert_to_boof camera_model in
      Ok (Java.LensDistortionUniversalOmni boof_model)
    else if isinstance camera_model Cls_CameraKannalaBrandt then
      let! boof_model := convert_to_boof camera_model in
      Ok (Java.LensDistortionKannalaBrandt boof_model)
    else
      Err (RuntimeError
             ("Unknown camera model " +:+ class_str (type_of camera_model))) in
  Ok (LensWideDistortionFactory.__init__ java_obj None).

(** [boofcv.alg.distort.NarrowToWidePtoP_F32]: the two lens distortions it
    is constructed from. *)
Record NarrowToWidePtoP_F32 : Type := mkNarrowToWide {
  ntw_narrow : Java.LensDistortion;
  ntw_wide : Java.LensDistortion
}.

Module NarrowToWideFovPtoP.

Record t : Type := mk { java_obj : NarrowToWidePtoP_F32 }.

Definition __init__ (narrow_model wide_model : pyobject) : result t :=
  let! narrow_distort := create_narrow_lens_distorter narrow_model in
  let! wide_distort := create_wide_lens_distorter wide_model in
  let java_object :=
    mkNarrowToWide (LensNarrowDistortionFactory.java_obj narrow_distort)
                   (LensWideDistortionFactory.java_obj wide_distort) in
  Ok (mk java_object).

End NarrowToWideFovPtoP.

(** ** Calibration front ends *)

(** [x = l[idx]] for a non-negative index. *)
Definition getitem {A : Type} (l : list A) (idx : nat) : result A :=
  match l !! idx with
  | Some x => Ok x
  | None => Err (IndexError "list index out of range")
  end.

(** One calibration image as the detector wrappers deliver it: the mapping
    with keys ["width"], ["height"] and ["pixels"], the latter a list of
    [(index, x, y)] tuples as [convert_from_boof_calibration_observations]
    builds them. *)
Record observation : Type := mkObservation {
  obs_width : Z;
  obs_height : Z;
  obs_pixels : list (Z * float * float)
}.

Module JavaCalib.

(** A target layout, [List<Point2D_F64>]. *)
Definition layout : Type := list (float * float).

(** [boofcv.alg.geo.calibration.CalibrationObservation]: the image shape
    and the [(point, index)] pairs in the order they were added. *)
Record CalibrationObservation : Type := mkObs {
  width : Z;
  height : Z;
  points : list ((float * float) * Z)
}.

Definition add (self : CalibrationObservation) (p : float * float) (index : Z)
  : CalibrationObservation :=
  mkObs (width self) (height self) (points self ++ [(p, index)]).

(** How the solver treats the mirror offset of the Universal Omni model:
    the three-argument [configureUniversalOmni] leaves it to be estimated,
    the four-argument one fixes it to the value given. *)
Inductive MirrorOffset : Type :=
  | Estimated
  | Fixed (value : float).

Inductive configuration : Type :=
  | Pinhole (zeroSkew : bool) (numRadial : Z) (tangential : bool)
  | UniversalOmni (zeroSkew : bool) (numRadial : Z) (tangential : bool)
                  (mirror : MirrorOffset)
  | KannalaBrandt (zeroSkew : bool) (numSymmetric numAsymmetric : Z).

(** A [CalibrateMonoPlanar] object: what it has been told so far. *)
Record CalibrateMonoPlanar : Type := mkMono {
  mono_layout : layout;
  mono_config : option configuration;
  mono_images : list CalibrationObservation
}.

Definition new_CalibrateMonoPlanar (l : layout) : CalibrateMonoPlanar :=
  mkMono l None [].

Definition configure_mono (self : CalibrateMonoPlanar) (c : configuration)
  : CalibrateMonoPlanar :=
  mkMono (mono_layout self) (Some c) (mono_images self).

Definition configurePinhole self zeroSkew numRadial tangential :=
  configure_mono self (Pinhole zeroSkew numRadial tangential).

Definition configureUniversalOmni3 self zeroSkew numRadial tangential :=
  configure_mono self (UniversalOmni zeroSkew numRadial tangential Estimated).

Definition configureUniversalOmni4 self zeroSkew numRadial tangential
    (mirrorOffset : float) :=
  configure_mono self
    (UniversalOmni zeroSkew numRadial tangential (Fixed mirrorOffset)).

Definition configureKannalaBrandt self zeroSkew numSymmetric numAsymmetric :=
  configure_mono self (KannalaBrandt zeroSkew numSymmetric numAsymmetric).

Definition addImage (self : CalibrateMonoPlanar) (o : CalibrationObservation)
  : CalibrateMonoPlanar :=
  mkMono (mono_layout self) (mono_config self) (mono_images self ++ [o]).

(** A [CalibrateStereoPlanar] object. *)
Record CalibrateStereoPlanar : Type := mkStereo {
  stereo_layout : layout;
  stereo_config : option (bool * Z * bool);
  stereo_pairs : list (CalibrationObservation * CalibrationObservation)
}.

Definition new_CalibrateStereoPlanar (l : layout) : CalibrateStereoPlanar :=
  mkStereo l None [].

Definition configure (self : CalibrateStereoPlanar) (zeroSkew : bool)
    (numRadial : Z) (tangential : bool) : CalibrateStereoPlanar :=
  mkStereo (stereo_layout self) (Some (zeroSkew, numRadial, tangential))
           (stereo_pairs self).

Definition addPair (self : CalibrateStereoPlanar)
    (l r : CalibrationObservation) : CalibrateStereoPlanar :=
  mkStereo (stereo_layout self) (stereo_config self)
           (stereo_pairs self ++ [(l, r)]).

(** [ImageResults]: the per-image residual statistics. *)
Record ImageResults : Type := mkResults {
  getMeanError : float;
  getMaxError : float;
  getBiasX : float;
  getBiasY : float
}.

(** [georegression.struct.se.Se3_F64]: the rotation matrix, row by row,
    and the translation. A new one is the identity transform. *)
Record Se3_F64 : Type := mkSe3 { R : list float; T : list float }.

Definition new_Se3_F64 : Se3_F64 :=
  mkSe3 [1%float; 0%float; 0%float; 0%float; 1%float; 0%float;
         0%float; 0%float; 1%float]
        [0%float; 0%float; 0%float].

Record StereoParameters : Type := mkStereoParameters {
  left : Java.CameraPinholeBrown;
  right : Java.CameraPinholeBrown;
  right_to_left : Se3_F64
}.

End JavaCalib.

(** The Java detector behind a [FiducialCalibrationDetector]: its two
    layout accessors. Either may throw. *)
Record detector : Type := mkDetector {
  getLayout : result JavaCalib.layout;
  getLayout_at : Z -> result JavaCalib.layout
}.

(** The observation as a Java [CalibrationObservation]: the points are
    added in the order of the ["pixels"] list. *)
Definition convert_into_boof_calibration_observations (observations : observation)
  : JavaCalib.CalibrationObservation :=
  let width := obs_width observations in
  let height := obs_height observations in
  let pixels := obs_pixels observations in
  let jobs := JavaCalib.mkObs width height [] in
  fold_left (fun jobs o =>
               let p := (o.1.2, o.2) in
               JavaCalib.add jobs p o.1.1)
            pixels jobs.

(** [convert_from_boof_calibration_observations]: the [(index, x, y)]
    tuples of the points of a Java observation, in their order. *)
Definition convert_from_boof_calibration_observations
    (jobservations : JavaCalib.CalibrationObservation) : list (Z * float * float) :=
  let jlist := JavaCalib.points jobservations in
  fold_left (fun (output : list (Z * float * float)) o =>
               (output ++ [(o.2, o.1.1, o.1.2)])%list)
            jlist [].

(** The dictionary built for one [ImageResults]. *)
Record error_dict : Type := mkError {
  mean : float; max_error : float; bias_x : float; bias_y : float
}.

Definition error_of (jerror : JavaCalib.ImageResults) : error_dict :=
  mkError (JavaCalib.getMeanError jerror) (JavaCalib.getMaxError jerror)
          (JavaCalib.getBiasX jerror) (JavaCalib.getBiasY jerror).

(** The [for o in observations: jcalib_planar.addImage(...)] loop. *)
Definition add_images (jcalib_planar : JavaCalib.CalibrateMonoPlanar)
    (observations : list observation) : JavaCalib.CalibrateMonoPlanar :=
  fold_left (fun j o =>
               JavaCalib.addImage j (convert_into_boof_calibration_observations o))
            observations jcalib_planar.

(** [calibrate_universal] up to the call of [process()]: the calibrator as
    the solver receives it. *)
Definition universal_calibrator (observations : list observation)
    (d : detector) (num_radial : Z) (tangential zero_skew : bool)
    (mirror_offset : option pynum) : result JavaCalib.CalibrateMonoPlanar :=
  let! jlayout := getLayout d in
  let jcalib_planar := JavaCalib.new_CalibrateMonoPlanar jlayout in
  let! jcalib_planar :=
    match mirror_offset with
    | None =>
        Ok (JavaCalib.configureUniversalOmni3 jcalib_planar zero_skew
              num_radial tangential)
    | Some m =>
        let! jmirror := py_float m in
        Ok (JavaCalib.configureUniversalOmni4 jcalib_planar zero_skew
              num_radial tangential jmirror)
    end in
  Ok (add_images jcalib_planar observations).

(** The [for idx in range(len(observations_left))] loop of
    [calibrate_stereo], over the indices still to visit. *)
Fixpoint add_pairs (indices : list nat)
    (observations_left observations_right : list observation)
    (jcalib_planar : JavaCalib.CalibrateStereoPlanar)
  : result JavaCalib.CalibrateStereoPlanar :=
  match indices with
  | [] => Ok jcalib_planar
  | idx :: rest =>
      let! l := getitem observations_left idx in
      let jobs_left := convert_into_boof_calibration_observations l in
      let! r := getitem observations_right idx in
      let jobs_right := convert_into_boof_calibration_observations r in
      add_pairs rest observations_left observations_right
                (JavaCalib.addPair jcalib_planar jobs_left jobs_right)
  end.

(** [calibrate_stereo] up to the call of [process()]. *)
Definition stereo_calibrator (observations_left observations_right : list observation)
    (d : detector) (num_radial : Z) (tangential zero_skew : bool)
  : result JavaCalib.CalibrateStereoPlanar :=
  let! jlayout := getLayout_at d 0 in
  let jcalib_planar := JavaCalib.new_CalibrateStereoPlanar jlayout in
  let jcalib_planar :=
    JavaCalib.configure jcalib_planar zero_skew num_radial tangential in
  add_pairs (seq 0 (length observations_left))
            observations_left observations_right jcalib_planar.

(** [StereoParameters]: two Brown cameras and the pose of the right camera
    in the left one's frame. *)
Module StereoParameters.

Record t : Type := mk {
  left : CameraBrown.t;
  right : CameraBrown.t;
  right_to_left : JavaCalib.Se3_F64
}.

Definition set_from_boof (boof_parameters : JavaCalib.StereoParameters) : t :=
  mk (CameraBrown.__init__ (Some (JavaCalib.left boof_parameters)))
     (CameraBrown.__init__ (Some (JavaCalib.right boof_parameters)))
     (JavaCalib.right_to_left boof_parameters).

Definition __init__ (java_object : option JavaCalib.StereoParameters) : t :=
  match java_object with
  | None =>
      mk (CameraBrown.__init__ None) (CameraBrown.__init__ None)
         JavaCalib.new_Se3_F64
  | Some j => set_from_boof j
  end.

(** [convert_to_boof] onto a given storage: each camera is written onto the
    storage's camera of that side, the pose is copied with [setTo]. *)
Definition convert_to_boof_onto (self : t) (storage : JavaCalib.StereoParameters)
  : result JavaCalib.StereoParameters :=
  let! jleft :=
    CameraBrown.convert_to_boof_onto (left self) (JavaCalib.left storage) in
  let! jright :=
    CameraBrown.convert_to_boof_onto (right self) (JavaCalib.right storage) in
  Ok (JavaCalib.mkStereoParameters jleft jright (right_to_left self)).

(** [convert_to_boof()] with no storage: a new Java [StereoParameters] whose
    cameras and pose are first set to those of fresh Python objects. *)
Definition convert_to_boof (self : t) : result JavaCalib.StereoParameters :=
  let! jleft0 := CameraBrown.convert_to_boof (CameraBrown.__init__ None) in
  let! jright0 := CameraBrown.convert_to_boof (CameraBrown.__init__ None) in
  let boof_parameters :=
    JavaCalib.mkStereoParameters jleft0 jright0 JavaCalib.new_Se3_F64 in
  convert_to_boof_onto self boof_parameters.

End StereoParameters.

(** The getters a Python camera constructor calls exist on the Java class
    and its subclasses only. *)
Definition as_brown (j : Java.camera) : result Java.CameraPinholeBrown :=
  match j with
  | Java.Brown m => Ok m
  | Java.Omni m => Ok (Java.brown m)
  | Java.KannalaBrandt _ => Err (Py4JJavaError "Method getT1([]) does not exist")
  end.

Definition as_omni (j : Java.camera) : result Java.CameraUniversalOmni :=
  match j with
  | Java.Omni m => Ok m
  | _ => Err (Py4JJavaError "Method getMirrorOffset([]) does not exist")
  end.

Definition as_kannala_brandt (j : Java.camera) : result Java.CameraKannalaBrandt :=
  match j with
  | Java.KannalaBrandt m => Ok m
  | _ => Err (Py4JJavaError "Method getSymmetric([]) does not exist")
  end.

Section Solver.

(** The wrapped solver: [process()] on a calibrator that has been
    configured and fed, and the residuals it reports afterwards. *)
Variable process : JavaCalib.CalibrateMonoPlanar -> result Java.camera.
Variable getErrors : JavaCalib.CalibrateMonoPlanar -> list JavaCalib.ImageResults.
Variable process_stereo :
  JavaCalib.CalibrateStereoPlanar -> result JavaCalib.StereoParameters.
Variable computeErrors :
  JavaCalib.CalibrateStereoPlanar -> list JavaCalib.ImageResults.

Definition calibrate_brown (observations : list observation) (d : detector)
    (num_radial : Z) (tangential zero_skew : bool)
  : result (CameraBrown.t * list error_dict) :=
  let! jlayout := getLayout d in
  let jcalib_planar := JavaCalib.new_CalibrateMonoPlanar jlayout in
  let jcalib_planar :=
    JavaCalib.configurePinhole jcalib_planar zero_skew num_radial tangential in
  let jcalib_planar := add_images jcalib_planar observations in
  let! jmodel := process jcalib_planar in
  let! jbrown := as_brown jmodel in
  let intrinsic := CameraBrown.__init__ (Some jbrown) in
  let errors := map error_of (getErrors jcalib_planar) in
  Ok (intrinsic, errors).

(** [calibrate_universal] from the call of [process()] on. *)
Definition finish_universal (jcalib_planar : JavaCalib.CalibrateMonoPlanar)
  : result (CameraUniversalOmni.t * list error_dict) :=
  let! jmodel := process jcalib_planar in
  let! jomni := as_omni jmodel in
  let intrinsic := CameraUniversalOmni.__init__ (Some jomni) in
  let errors := map error_of (getErrors jcalib_planar) in
  Ok (intrinsic, errors).

Definition calibrate_universal (observations : list observation) (d : detector)
    (num_radial : Z) (tangential zero_skew : bool) (mirror_offset : option pynum)
  : result (CameraUniversalOmni.t * list error_dict) :=
  let! jcalib_planar :=
    universal_calibrator observations d num_radial tangential zero_skew
                         mirror_offset in
  finish_universal jcalib_planar.

Definition calibrate_kannala_brandt (observations : list observation)
    (d : detector) (num_symmetric num_asymmetric : Z) (zero_skew : bool)
  : result (CameraKannalaBrandt.t * list error_dict) :=
  let! jlayout := getLayout d in
  let jcalib_planar := JavaCalib.new_CalibrateMonoPlanar jlayout in
  let jcalib_planar :=
    JavaCalib.configureKannalaBrandt jcalib_planar zero_skew num_symmetric
                                     num_asymmetric in
  let jcalib_planar := add_images jcalib_planar observations in
  let! jmodel := process jcalib_planar in
  let! jkb := as_kannala_brandt jmodel in
  let intrinsic := CameraKannalaBrandt.__init__ (Some jkb) in
  let errors := map error_of (getErrors jcalib_planar) in
  Ok (intrinsic, errors).

(** [calibrate_stereo] from the call of [process()] on. *)
Definition finish_stereo (jcalib_planar : JavaCalib.CalibrateStereoPlanar)
  : result (StereoParameters.t * list error_dict) :=
  let! jparameters := process_stereo jcalib_planar in
  let stereo_parameters := StereoParameters.__init__ (Some jparameters) in
  let errors := map error_of (computeErrors jcalib_planar) in
  Ok (stereo_parameters, errors).

Definition calibrate_stereo (observations_left observations_right : list observation)
    (d : detector) (num_radial : Z) (tangential zero_skew : bool)
  : result (StereoParameters.t * list error_dict) :=
  let! jcalib_planar :=
    stereo_calibrator observations_left observations_right d num_radial
                      tangential zero_skew in
  finish_stereo jcalib_planar.

End Solver.

(** ** The Python heap *)

(** Camera models are mutable objects that callers share by reference. The
    store maps a reference to the object's state: the attributes its class
    declares, and a dictionary of the attributes assigned besides. *)
Definition loc : Type := positive.

Inductive pyval : Type :=
  | V_none
  | V_num (n : pynum)
  | V_list (l : list pynum).

Record instance : Type := mkInstance {
  inst_obj : pyobject;
  inst_extra : gmap string pyval
}.

Definition heap : Type := gmap loc instance.

(** A computation that reads and writes the heap and may raise; the heap
    keeps the writes made before an exception. *)
Definition py (A : Type) : Type := heap -> result A * heap.

Definition py_ret {A : Type} (v : A) : py A := fun h => (Ok v, h).

Definition py_bind {A B : Type} (m : py A) (k : A -> py B) : py B :=
  fun h =>
    match m h with
    | (Ok v, h') => k v h'
    | (Err e, h') => (Err e, h')
    end.

Notation "'let*' x ':=' m 'in' k" := (py_bind m (fun x => k))
  (at level 10, x name, m at level 100, k at level 200).

(** A heap-free step: a conversion, or a call into Java. *)
Definition lift {A : Type} (r : result A) : py A := fun h => (r, h).

(** [C(...)]: a new object, at a reference that was not in use. *)
Definition new_object (o : pyobject) : py loc :=
  fun h =>
    let l := fresh (dom h) in
    (Ok l, <[l := mkInstance o ∅]> h).

(** The object a reference denotes. A Python reference always denotes
    one; a reference that the heap does not hold is reported as an error
    to keep the lookup total. *)
Definition deref (l : loc) : py instance :=
  fun h =>
    match h !! l with
    | Some i => (Ok i, h)
    | None => (Err (RuntimeError "dangling reference"), h)
    end.

Definition store (l : loc) (i : instance) : py unit :=
  fun h => (Ok tt, <[l := i]> h).

(** The seven attributes of [CameraPinhole], which every camera class
    inherits; reading one from any other object raises. *)
Definition pinhole_of (o : pyobject) : result CameraPinhole.t :=
  match o with
  | Obj_CameraPinhole c => Ok c
  | Obj_CameraBrown c => Ok (CameraBrown.base c)
  | Obj_CameraUniversalOmni c => Ok (CameraBrown.base (CameraUniversalOmni.base c))
  | Obj_CameraKannalaBrandt c => Ok (CameraKannalaBrandt.base c)
  | Obj_other _ _ => Err (no_attribute o "fx")
  end.

(** [CameraPinhole.set(self, orig)] on a [CameraPinhole] instance [self]:
    reads the seven attributes of [orig], writes them to [self]. *)
Definition CameraPinhole_set (self orig : loc) : py unit :=
  let* o := deref orig in
  let* p := lift (pinhole_of (inst_obj o)) in
  let* s := deref self in
  match inst_obj s with
  | Obj_CameraPinhole c =>
      store self (mkInstance (Obj_CameraPinhole (CameraPinhole.set c p))
                             (inst_extra s))
  | _ => lift (Err (no_attribute (inst_obj s) "set"))
  end.

(** [obj.name = v] for a name the class of [obj] does not declare: the
    attribute is created in (or replaced in) the instance dictionary. *)
Definition setattr_extra (obj : loc) (name : string) (v : pyval) : py unit :=
  let* i := deref obj in
  store obj (mkInstance (inst_obj i) (<[name := v]> (inst_extra i))).

(** ** Changing the camera model of an image *)

(** A reference to an object living in the JVM (an image, an image type, a
    border enum value, an image distort). *)
Definition jref : Type := N.

Module AdjustmentType.
Definition NONE : Z := 0.
Definition FULL_VIEW : Z := 1.
Definition EXPAND : Z := 2.

(** [boofcv.alg.distort.AdjustmentType], by the name given to [valueOf]. *)
Inductive java : Type := J_NONE | J_FULL_VIEW | J_EXPAND.
End AdjustmentType.

Definition adjustment_to_java (value : Z) : result AdjustmentType.java :=
  if value =? AdjustmentType.NONE then Ok AdjustmentType.J_NONE
  else if value =? AdjustmentType.FULL_VIEW then Ok AdjustmentType.J_FULL_VIEW
  else if value =? AdjustmentType.EXPAND then Ok AdjustmentType.J_EXPAND
  else Err (RuntimeError "Unknown type").

Section ChangeCameraModel.

(** What the module calls but does not define: [border_to_java] of
    [pyboof.image], [input.getImageType()], the Java operation
    [LensDistortionOps.changeCameraModel] (it returns the image distort
    and fills the output model passed to it) and [ImageDistort.apply]. *)
Variable border_to_java : Z -> result jref.
Variable getImageType : jref -> result jref.
Variable changeCameraModel :
  AdjustmentType.java -> jref -> Java.camera -> Java.camera ->
  Java.CameraPinholeBrown -> jref -> result (jref * Java.CameraPinholeBrown).
Variable apply : jref -> jref -> jref -> result unit.

(** [image_type] is the Java image type that the [ImageType] wrapper (of
    [pyboof.image]) holds; the [ImageDistort] returned is the Java object
    that the wrapper of that name holds. *)
Definition create_change_camera_model (intrinsic_orig intrinsic_desired : loc)
    (image_type : jref) (adjustment border : Z) : py (jref * loc) :=
  let java_image_type := image_type in
  let* java_adjustment := lift (adjustment_to_java adjustment) in
  let* java_border := lift (border_to_java border) in
  let* orig := deref intrinsic_orig in
  let* java_original := lift (convert_to_boof (inst_obj orig)) in
  let* desired := deref intrinsic_desired in
  let* java_desired := lift (convert_to_boof (inst_obj desired)) in
  let java_intrinsic_out := Java.new_CameraPinholeBrown in
  let* r := lift (changeCameraModel java_adjustment java_border java_original
                    java_desired java_intrinsic_out java_image_type) in
  let* out :=
    new_object (Obj_CameraPinhole (CameraPinhole.__init__ (Some (Java.pinhole r.2)))) in
  py_ret (r.1, out).

Definition remove_distortion (input output : jref) (intrinsic : loc)
    (adjustment border : Z) : py loc :=
  let* image_type := lift (getImageType input) in
  let* desired := new_object (Obj_CameraPinhole (CameraPinhole.__init__ None)) in
  let* _ := CameraPinhole_set desired intrinsic in
  let* _ := setattr_extra desired "radial" (V_list [PyInt 0; PyInt 0]) in
  let* _ := setattr_extra desired "t1" (V_num (PyInt 0)) in
  let* _ := setattr_extra desired "t2" (V_num (PyInt 0)) in
  let* r := create_change_camera_model intrinsic desired image_type
              adjustment border in
  let distorter := r.1 in
  let intrinsic_out := r.2 in
  let* _ := lift (apply distorter input output) in
  py_ret intrinsic_out.

End ChangeCameraModel.

(** * Vocabulary of the statements *)

(** ** Numbers and exceptions *)

Definition float_is_zero (x : float) : Prop :=
  exists s, Prim2SF x = S754_zero s.

(** A number is zero: the int [0], or one of the two float zeros. *)
Definition num_is_zero (n : pynum) : Prop :=
  match n with
  | PyInt z => z = 0
  | PyFloat x => float_is_zero x
  end.

(** Whether a call raised an exception of the class named. *)
Definition raises {A : Type} (r : result A) (class_name : string) : bool :=
  match r with
  | Ok _ => false
  | Err e => String.eqb (exn_class_name e) class_name
  end.

Definition omni_error : exn :=
  RuntimeError "CameraUniversalOmni is not a narrow FOV camera model".

(** ** Distortion and precision *)

(** What the data model says of [is_distorted]: the radial sequence is
    non-empty, or a tangential term is non-zero. *)
Definition is_distorted_by_spec (b : CameraBrown.t) : bool :=
  match CameraBrown.radial b with
  | Some (_ :: _) => true
  | _ => false
  end
  || py_ne_zero (CameraBrown.t1 b) || py_ne_zero (CameraBrown.t2 b).

(** The arithmetic that the flag [use_32] selects. *)
Definition flag_precision (use_32 : bool) : precision :=
  if use_32 then F32 else F64.

Definition transform_precision (x : Transform) : precision :=
  JavaTransform.precision_of (transform_java_obj x).

(** ** The heap *)

(** [m] keeps every object of the heap [h0] as it is, whatever else the
    heap it runs in has come to hold, and a value it returns satisfies
    [Q]. *)
Definition keeps (h0 : heap) {A : Type} (m : py A) (Q : A -> Prop) : Prop :=
  forall h : heap, h0 ⊆ h ->
    h0 ⊆ (m h).2 /\ forall v, (m h).1 = Ok v -> Q v.

(** ** Renderings *)

(** [sub] occurs in [s]. *)
Definition includes (s sub : string) : Prop :=
  exists pre post, s = pre +:+ sub +:+ post.

(** The decision procedure for [includes]: [sub in s]. *)
Fixpoint includesb (sub s : string) : bool :=
  String.prefix sub s ||
  match s with
  | EmptyString => false
  | String _ s' => includesb sub s'
  end.

(** The rendering [s] shows the text [text] under the label [label]. *)
Definition shows (s label text : string) : Prop :=
  includes s (label +:+ "=" +:+ text).

(** The same for a value that [format] renders, when it renders it. *)
Definition shows_formatted (s label : string) (r : result string) : Prop :=
  exists text, r = Ok text /\ shows s label text.

Definition shows_intrinsics (p : CameraPinhole.t) (s : string) : Prop :=
  shows_formatted s "fx" (format_f (CameraPinhole.fx p)) /\
  shows_formatted s "fy" (format_f (CameraPinhole.fy p)) /\
  shows_formatted s "skew" (format_f (CameraPinhole.skew p)) /\
  shows_formatted s "cx" (format_f (CameraPinhole.cx p)) /\
  shows_formatted s "cy" (format_f (CameraPinhole.cy p)) /\
  shows s "width" (format_d (CameraPinhole.width p)) /\
  shows s "height" (format_d (CameraPinhole.height p)).

(** The [{:f}] fields of the intrinsics all convert to a float. *)
Definition intrinsics_format (p : CameraPinhole.t) : bool :=
  is_ok (py_float (CameraPinhole.fx p)) && is_ok (py_float (CameraPinhole.fy p)) &&
  is_ok (py_float (CameraPinhole.skew p)) &&
  is_ok (py_float (CameraPinhole.cx p)) && is_ok (py_float (CameraPinhole.cy p)).

(** What a Brown or Universal Omni rendering shows of the distortion: the
    radial list and [t1], each under its own label. *)
Definition shows_distortion (float_repr : float -> string) (b : CameraBrown.t)
    (s : string) : Prop :=
  shows s "radial" (option_list_str float_repr (CameraBrown.radial b)) /\
  shows s "t1" (py_str float_repr (CameraBrown.t1 b)).

Definition shows_kannala_brandt (float_repr : float -> string)
    (k : CameraKannalaBrandt.t) (s : string) : Prop :=
  shows s "symmetric" (list_str float_repr (CameraKannalaBrandt.symmetric k)) /\
  shows s "radial" (list_str float_repr (CameraKannalaBrandt.radial k)) /\
  shows s "radialTrig" (list_str float_repr (CameraKannalaBrandt.radialTrig k)) /\
  shows s "tangent" (list_str float_repr (CameraKannalaBrandt.tangent k)) /\
  shows s "tangentTrig" (list_str float_repr (CameraKannalaBrandt.tangentTrig k)).

(** ** Further vocabulary *)


(** The constant of [AdjustmentType] that stands for a Java value. *)
Definition adjustment_code (j : AdjustmentType.java) : Z :=
  match j with
  | AdjustmentType.J_NONE => AdjustmentType.NONE
  | AdjustmentType.J_FULL_VIEW => AdjustmentType.FULL_VIEW
  | AdjustmentType.J_EXPAND => AdjustmentType.EXPAND
  end.

(** The pinhole part of a Java camera model. *)
Definition java_pinhole_of (j : Java.camera) : Java.CameraPinhole :=
  match j with
  | Java.Brown m => Java.pinhole m
  | Java.Omni m => Java.pinhole (Java.brown m)
  | Java.KannalaBrandt m => Java.kb_pinhole m
  end.

(** The desired model that [remove_distortion] builds from the intrinsics
    [p] of its argument: a [CameraPinhole] with these intrinsics, and the
    attributes [radial], [t1], [t2] assigned besides. *)
Definition desired_instance (p : CameraPinhole.t) : instance :=
  mkInstance (Obj_CameraPinhole (CameraPinhole.set CameraPinhole.default p))
             (<["t2" := V_num (PyInt 0)]>
                (<["t1" := V_num (PyInt 0)]>
                   (<["radial" := V_list [PyInt 0; PyInt 0]]> ∅))).

(** The Java point of a pixel tuple, and the pixel tuple of a Java point. *)
Definition java_point (o : Z * float * float) : (float * float) * Z :=
  ((o.1.2, o.2), o.1.1).

Definition pixel_tuple (o : (float * float) * Z) : Z * float * float :=
  (o.2, o.1.1, o.1.2).

(** The Brown model that the setters of [CameraBrown.convert_to_boof]
    leave in a storage [s] when the Python object was read from [j]. *)
Definition restored_brown (j s : Java.CameraPinholeBrown) : Java.CameraPinholeBrown :=
  Java.mkBrown (Java.pinhole j)
    (match Java.radial j with
     | Some r => Some r
     | None => Java.radial s
     end)
    (Java.t1 j) (Java.t2 j).

(** * Sample models and calls *)

(** A Brown model whose radial list is the empty list [[]]. *)
Definition brown_empty_radial : CameraBrown.t :=
  CameraBrown.set_distortion CameraBrown.default (Some []) (PyInt 0) (PyInt 0).

(** A Brown model with one non-zero radial coefficient. *)
Definition distorted_brown : CameraBrown.t :=
  CameraBrown.set_distortion CameraBrown.default (Some [PyFloat 0.5])
                             (PyInt 0) (PyInt 0).

(** A Brown model with no radial list and a tangential term [t2 = 5]; all
    its attributes are ints or [None]. *)
Definition tangential_brown : CameraBrown.t :=
  CameraBrown.set_distortion CameraBrown.default None (PyInt 0) (PyInt 5).

(** The default Brown model and [tangential_brown] hold ints and [None]
    only, so rendering them never asks for the text of a float
    ([str_without_floats] below); this stands for it there. *)
Definition float_repr_unused (x : float) : string := "".

(** A detector with a one-point layout; solvers that answer with a fresh
    model and no residuals. *)
Definition sample_detector : detector :=
  mkDetector (Ok [(0%float, 0%float)]) (fun _ => Ok [(0%float, 0%float)]).

Definition sample_process (_ : JavaCalib.CalibrateMonoPlanar) : result Java.camera :=
  Ok (Java.Omni (Java.new_CameraUniversalOmni 2)).

Definition sample_errors (_ : JavaCalib.CalibrateMonoPlanar)
  : list JavaCalib.ImageResults := [].

Definition sample_process_stereo (_ : JavaCalib.CalibrateStereoPlanar)
  : result JavaCalib.StereoParameters :=
  Ok (JavaCalib.mkStereoParameters Java.new_CameraPinholeBrown
        Java.new_CameraPinholeBrown JavaCalib.new_Se3_F64).

Definition sample_errors_stereo (_ : JavaCalib.CalibrateStereoPlanar)
  : list JavaCalib.ImageResults := [].

Definition sample_observation : observation :=
  mkObservation 640 480 [(0, 1.5%float, 2.5%float); (1, 3.5%float, 4.5%float)].

Definition other_observation : observation :=
  mkObservation 640 480 [(0, 7.5%float, 8.5%float)].

(** A calibrated Brown camera, alone in the heap at reference [1], and
    stand-ins for the Java calls: [changeCameraModel] answers with the
    desired model's intrinsics. *)
Definition sample_camera : CameraBrown.t :=
  CameraBrown.mk
    (CameraPinhole.mk (PyFloat 500) (PyFloat 500) (PyInt 0)
                      (PyFloat 320) (PyFloat 240) 640 480)
    (Some [PyFloat 0.5; PyFloat 0.25]) (PyInt 0) (PyInt 0).

Definition sample_heap : heap :=
  {[ 1%positive := mkInstance (Obj_CameraBrown sample_camera) ∅ ]}.

Definition sample_border_to_java (border : Z) : result jref := Ok 0%N.

Definition sample_getImageType (input : jref) : result jref := Ok 7%N.

Definition sample_changeCameraModel (adjustment : AdjustmentType.java)
    (border : jref) (original desired : Java.camera)
    (out : Java.CameraPinholeBrown) (image_type : jref)
  : result (jref * Java.CameraPinholeBrown) :=
  match desired with
  | Java.Brown m => Ok (9%N, Java.mkBrown (Java.pinhole m) None 0%float 0%float)
  | _ => Err (Py4JJavaError "changeCameraModel")
  end.

Definition sample_apply (distorter input output : jref) : result unit := Ok tt.


(** * Properties *)

(** ** Numbers *)

Example py_float_examples :
  py_float (PyInt 3) = Ok 3%float /\
  py_float (PyInt 0) = Ok 0%float /\
  py_float (PyInt (2 ^ 53 + 1)) = Ok 9007199254740992%float /\
  is_ok (py_float (PyInt (2 ^ 1024))) = false /\
  py_ne_zero (PyFloat (-0)%float) = false /\
  py_ne_zero (PyFloat nan) = true.
Proof. vm_compute. repeat split; reflexivity. Qed.

Example format_examples :
  format_f (PyInt 0) = Ok "0.000000" /\
  format_f (PyInt (-12)) = Ok "-12.000000" /\
  format_f (PyFloat 0.5) = Ok "0.500000" /\
  format_f (PyFloat (-0)) = Ok "-0.000000" /\
  format_f (PyFloat 0.0078125) = Ok "0.007812" /\
  format_f (PyFloat 0.0234375) = Ok "0.023438" /\
  format_f (PyFloat 1234.5) = Ok "1234.500000" /\
  format_f (PyFloat infinity) = Ok "inf" /\
  format_d (-640) = "-640".
Proof. vm_compute. repeat split; reflexivity. Qed.

Lemma float_eqb_zero (x : float) :
  PrimFloat.eqb x PrimFloat.zero = true <-> float_is_zero x.
Proof.
  rewrite FloatAxioms.eqb_spec. unfold float_is_zero.
  change (Prim2SF PrimFloat.zero) with (S754_zero false).
  destruct (Prim2SF x) as [s | s | | s m e]; simpl.
  - split; [eauto | reflexivity].
  - destruct s; split; try discriminate; intros [? ?]; discriminate.
  - split; [discriminate | intros [? ?]; discriminate].
  - destruct s; split; try discriminate; intros [? ?]; discriminate.
Qed.

Lemma py_ne_zero_spec (n : pynum) :
  py_ne_zero n = true <-> ~ num_is_zero n.
Proof.
  destruct n as [z | x]; simpl.
  - rewrite negb_true_iff, Z.eqb_neq. reflexivity.
  - rewrite negb_true_iff, <- float_eqb_zero.
    destruct (PrimFloat.eqb x PrimFloat.zero); split; congruence.
Qed.

(** ** [is_distorted] *)

(** C3, counterexample: with [radial = []] (present but empty) and both
    tangential terms zero, [is_distorted()] is [True] although no radial
    coefficient exists and no tangential term is non-zero. *)
Lemma is_distorted_empty_radial :
  CameraBrown.is_distorted brown_empty_radial = true /\
  is_distorted_by_spec brown_empty_radial = false /\
  CameraBrown.radial brown_empty_radial = Some [] /\
  CameraBrown.t1 brown_empty_radial = PyInt 0 /\
  CameraBrown.t2 brown_empty_radial = PyInt 0.
Proof. repeat split. Qed.

(** C3, amended: [is_distorted()] is true exactly when [radial] is not
    [None] (an empty list counts), or [t1] is non-zero, or [t2] is non-zero;
    so a model with [radial = None] and zero tangential terms is not
    distorted. *)
Theorem is_distorted_iff (b : CameraBrown.t) :
  (CameraBrown.is_distorted b = true <->
     CameraBrown.radial b <> None \/
     ~ num_is_zero (CameraBrown.t1 b) \/ ~ num_is_zero (CameraBrown.t2 b)) /\
  ((CameraBrown.radial b = None /\
    num_is_zero (CameraBrown.t1 b) /\ num_is_zero (CameraBrown.t2 b)) <->
   CameraBrown.is_distorted b = false).
Proof.
  assert (Hiff : CameraBrown.is_distorted b = true <->
     CameraBrown.radial b <> None \/
     ~ num_is_zero (CameraBrown.t1 b) \/ ~ num_is_zero (CameraBrown.t2 b)).
  { unfold CameraBrown.is_distorted.
    rewrite !orb_true_iff, !py_ne_zero_spec.
    destruct (CameraBrown.radial b); split; intros H.
    - left; discriminate.
    - left; left; reflexivity.
    - destruct H as [[H | H] | H]; [discriminate | auto | auto].
    - destruct H as [H | [H | H]]; [congruence | auto | auto]. }
  split; [exact Hiff |].
  split.
  - intros (Hr & H1 & H2).
    destruct (CameraBrown.is_distorted b) eqn:E; [| reflexivity].
    destruct (proj1 Hiff eq_refl) as [E' | [E' | E']]; contradiction.
  - intros E. unfold CameraBrown.is_distorted in E.
    apply orb_false_iff in E as [E E2]. apply orb_false_iff in E as [E0 E1].
    repeat split.
    + destruct (CameraBrown.radial b); [discriminate | reflexivity].
    + destruct (CameraBrown.t1 b) as [z | x]; simpl in *.
      * apply negb_false_iff, Z.eqb_eq in E1. exact E1.
      * apply negb_false_iff, float_eqb_zero in E1. exact E1.
    + destruct (CameraBrown.t2 b) as [z | x]; simpl in *.
      * apply negb_false_iff, Z.eqb_eq in E2. exact E2.
      * apply negb_false_iff, float_eqb_zero in E2. exact E2.
Qed.

(** ** Dispatch of the build functions *)

(** Every camera object is an instance of [CameraPinhole]. *)
Lemma isinstance_pinhole (o : pyobject) :
  isinstance o Cls_CameraPinhole = true <-> forall m n, o <> Obj_other m n.
Proof.
  destruct o as [c | c | c | c | m n]; split;
    try (intros _ m' n'; discriminate); try reflexivity.
  - intros H. vm_compute in H. discriminate.
  - intros H. destruct (H m n eq_refl).
Qed.

(** C1, the code at a distorted Brown model: [is_distorted()] is true, yet
    the factory is built on [LensDistortionPinhole], because the test
    [isinstance(camera_model, CameraPinhole)] comes first and holds for
    every [CameraBrown]. *)
Theorem narrow_distorted_brown_gets_pinhole_engine :
  CameraBrown.is_distorted distorted_brown = true /\
  create_narrow_lens_distorter (Obj_CameraBrown distorted_brown) =
    Ok (LensNarrowDistortionFactory.mk
          (Java.LensDistortionPinhole
             (Java.Brown
                (Java.mkBrown Java.zero_pinhole (Some [0.5%float])
                              0%float 0%float)))
          true).
Proof. split; vm_compute; reflexivity. Qed.

(** X1: the [CameraBrown] branch of [create_narrow_lens_distorter] is never
    taken: whatever the model, a factory that is returned wraps
    [LensDistortionPinhole]. *)
Theorem narrow_engine_is_pinhole (o : pyobject) (f : LensNarrowDistortionFactory.t) :
  create_narrow_lens_distorter o = Ok f ->
  exists m, LensNarrowDistortionFactory.java_obj f = Java.LensDistortionPinhole m.
Proof.
  unfold create_narrow_lens_distorter.
  destruct (isinstance o Cls_CameraUniversalOmni); [discriminate |].
  destruct (isinstance o Cls_CameraPinhole) eqn:Hp.
  - destruct (convert_to_boof o) as [m | e]; simpl; [| discriminate].
    intros [= <-]. eauto.
  - destruct o; try discriminate Hp. simpl. discriminate.
Qed.

(** An example for [narrow_engine_is_pinhole]: the distorted Brown model. *)
Lemma narrow_engine_is_pinhole_witness :
  create_narrow_lens_distorter (Obj_CameraBrown distorted_brown) =
    Ok (LensNarrowDistortionFactory.mk
          (Java.LensDistortionPinhole
             (Java.Brown
                (Java.mkBrown Java.zero_pinhole (Some [0.5%float])
                              0%float 0%float)))
          true) /\
  exists m,
    LensNarrowDistortionFactory.java_obj
      (LensNarrowDistortionFactory.mk
         (Java.LensDistortionPinhole
            (Java.Brown
               (Java.mkBrown Java.zero_pinhole (Some [0.5%float])
                             0%float 0%float)))
         true) = Java.LensDistortionPinhole m.
Proof.
  split; [vm_compute; reflexivity |].
  apply (narrow_engine_is_pinhole (Obj_CameraBrown distorted_brown)).
  vm_compute; reflexivity.
Defined.

(** C2, counterexample: for the default [CameraUniversalOmni] the call
    raises a [RuntimeError]; no exception of a class named
    [UnsupportedModelError] is raised (the module defines none). *)
Lemma narrow_omni_raises_runtime_error :
  create_narrow_lens_distorter
    (Obj_CameraUniversalOmni CameraUniversalOmni.default) = Err omni_error /\
  raises (create_narrow_lens_distorter
            (Obj_CameraUniversalOmni CameraUniversalOmni.default))
         "UnsupportedModelError" = false /\
  raises (create_narrow_lens_distorter
            (Obj_CameraUniversalOmni CameraUniversalOmni.default))
         "RuntimeError" = true.
Proof. repeat split. Qed.

(** C2, amended: for every instance of [CameraUniversalOmni],
    [create_narrow_lens_distorter] raises [RuntimeError] with the message
    "CameraUniversalOmni is not a narrow FOV camera model", whatever the
    model's fields, and returns no factory. *)
Theorem narrow_rejects_universal_omni (o : pyobject) :
  isinstance o Cls_CameraUniversalOmni = true ->
  create_narrow_lens_distorter o = Err omni_error /\
  is_ok (create_narrow_lens_distorter o) = false /\
  raises (create_narrow_lens_distorter o) "RuntimeError" = true.
Proof.
  intros H. unfold create_narrow_lens_distorter. rewrite H. repeat split.
Qed.

(** The default Universal Omni model is such an instance. *)
Lemma narrow_rejects_universal_omni_witness :
  isinstance (Obj_CameraUniversalOmni CameraUniversalOmni.default)
             Cls_CameraUniversalOmni = true /\
  create_narrow_lens_distorter
    (Obj_CameraUniversalOmni CameraUniversalOmni.default) = Err omni_error.
Proof.
  split; [reflexivity |].
  apply (narrow_rejects_universal_omni
           (Obj_CameraUniversalOmni CameraUniversalOmni.default)).
  reflexivity.
Defined.

(** C8: a model that is neither a [CameraUniversalOmni] nor a
    [CameraKannalaBrandt] makes [create_wide_lens_distorter] raise
    [RuntimeError] "Unknown camera model <its class>"; no factory is
    returned. Plain [CameraPinhole] and [CameraBrown] instances are such
    models. *)
Theorem wide_rejects_other_models (o : pyobject) :
  isinstance o Cls_CameraUniversalOmni = false ->
  isinstance o Cls_CameraKannalaBrandt = false ->
  create_wide_lens_distorter o =
    Err (RuntimeError ("Unknown camera model " +:+ class_str (type_of o))) /\
  is_ok (create_wide_lens_distorter o) = false.
Proof.
  intros Ho Hk. unfold create_wide_lens_distorter. rewrite Ho, Hk.
  split; reflexivity.
Qed.

(** The default pinhole model and a distorted Brown model are rejected. *)
Lemma wide_rejects_other_models_witness :
  (isinstance (Obj_CameraPinhole CameraPinhole.default)
              Cls_CameraUniversalOmni = false /\
   isinstance (Obj_CameraPinhole CameraPinhole.default)
              Cls_CameraKannalaBrandt = false /\
   create_wide_lens_distorter (Obj_CameraPinhole CameraPinhole.default) =
     Err (RuntimeError
            "Unknown camera model <class 'pyboof.calib.CameraPinhole'>")) /\
  (isinstance (Obj_CameraBrown distorted_brown) Cls_CameraUniversalOmni = false /\
   isinstance (Obj_CameraBrown distorted_brown) Cls_CameraKannalaBrandt = false /\
   create_wide_lens_distorter (Obj_CameraBrown distorted_brown) =
     Err (RuntimeError
            "Unknown camera model <class 'pyboof.calib.CameraBrown'>")).
Proof.
  split; (split; [reflexivity | split; [reflexivity |]]).
  - apply (wide_rejects_other_models (Obj_CameraPinhole CameraPinhole.default));
      reflexivity.
  - apply (wide_rejects_other_models (Obj_CameraBrown distorted_brown));
      reflexivity.
Defined.

(** ** Marshalling between Python and Java *)

Lemma double_array_round_trip (l : list float) :
  python_to_java_double_array (map PyFloat l) = Ok l.
Proof.
  unfold python_to_java_double_array.
  induction l as [| x l IH]; [reflexivity |].
  cbn [map map_result py_float bind]. rewrite IH. reflexivity.
Qed.

(** X2: reading a Java model into a Python camera object and converting
    it back writes the values that were read. For a Brown model the
    setters restore every field of the Java model, except that a missing
    radial array is not written, so the storage keeps the one it has; for
    a Kannala-Brandt model and for the pinhole part of any model every
    field is restored. *)
Theorem marshal_round_trip :
  (forall j storage : Java.CameraPinholeBrown,
     CameraBrown.convert_to_boof_onto (CameraBrown.__init__ (Some j)) storage =
       Ok (Java.mkBrown (Java.pinhole j)
             (match Java.radial j with
              | Some r => Some r
              | None => Java.radial storage
              end)
             (Java.t1 j) (Java.t2 j))) /\
  (forall j : Java.CameraKannalaBrandt,
     CameraKannalaBrandt.convert_to_boof
       (CameraKannalaBrandt.__init__ (Some j)) = Ok j) /\
  (forall j : Java.CameraPinhole,
     CameraPinhole.convert_to_boof_onto (CameraPinhole.__init__ (Some j)) =
       Ok j).
Proof.
  split; [| split].
  - intros [[fx fy skew cx cy w h] [r |] t1 t2] storage;
      unfold CameraBrown.convert_to_boof_onto;
      cbn; [rewrite double_array_round_trip |]; reflexivity.
  - intros [[fx fy skew cx cy w h] s r rt t tt].
    unfold CameraKannalaBrandt.convert_to_boof. cbn.
    rewrite !double_array_round_trip. reflexivity.
  - intros [fx fy skew cx cy w h]. reflexivity.
Qed.

(** ** Precision of the transforms *)

Lemma narrow_factory_flag (o : pyobject) (f : LensNarrowDistortionFactory.t) :
  create_narrow_lens_distorter o = Ok f ->
  LensNarrowDistortionFactory.use_32 f = true.
Proof.
  unfold create_narrow_lens_distorter.
  match goal with |- bind ?r _ = _ -> _ => destruct r as [j | e] end;
    simpl; [| discriminate].
  intros [= <-]. reflexivity.
Qed.

Lemma wide_factory_flag (o : pyobject) (f : LensWideDistortionFactory.t) :
  create_wide_lens_distorter o = Ok f ->
  LensWideDistortionFactory.use_32 f = true.
Proof.
  unfold create_wide_lens_distorter.
  match goal with |- bind ?r _ = _ -> _ => destruct r as [j | e] end;
    simpl; [| discriminate].
  intros [= <-]. reflexivity.
Qed.

(** C5, counterexample: the build functions take the camera model and
    nothing else; the factory they return for the default pinhole model
    (and likewise for the default Universal Omni model) has [use_32 = True]
    and hands out single-precision transforms. A caller of the build
    functions has no argument that selects double precision. *)
Lemma build_functions_fix_single_precision :
  create_narrow_lens_distorter (Obj_CameraPinhole CameraPinhole.default) =
    Ok (LensNarrowDistortionFactory.mk
          (Java.LensDistortionPinhole (Java.Brown Java.new_CameraPinholeBrown))
          true) /\
  transform_precision
    (LensNarrowDistortionFactory.distort
       (LensNarrowDistortionFactory.mk
          (Java.LensDistortionPinhole (Java.Brown Java.new_CameraPinholeBrown))
          true) true true) = F32 /\
  create_wide_lens_distorter
    (Obj_CameraUniversalOmni CameraUniversalOmni.default) =
    Ok (LensWideDistortionFactory.mk
          (Java.LensDistortionUniversalOmni
             (Java.Omni (Java.new_CameraUniversalOmni 0)))
          true) /\
  transform_precision
    (LensWideDistortionFactory.undistort_p_to_s
       (LensWideDistortionFactory.mk
          (Java.LensDistortionUniversalOmni
             (Java.Omni (Java.new_CameraUniversalOmni 0)))
          true)) = F32.
Proof. repeat split; vm_compute; reflexivity. Qed.

(** C5, amended: the precision is the factory's [use_32] flag, an argument
    of the factory's constructor that defaults to [True]: every transform
    of a factory (distort and undistort, or sphere-to-pixel and
    pixel-to-sphere) is single precision when the flag is true and double
    precision otherwise, so one precision per factory. The build functions
    [create_narrow_lens_distorter] and [create_wide_lens_distorter] pass no
    flag: every factory they return has [use_32 = True] and produces
    single-precision transforms. *)
Theorem factory_precision :
  (forall (f : LensNarrowDistortionFactory.t) (a b c d : bool),
     transform_precision (LensNarrowDistortionFactory.distort f a b) =
       flag_precision (LensNarrowDistortionFactory.use_32 f) /\
     transform_precision (LensNarrowDistortionFactory.undistort f c d) =
       flag_precision (LensNarrowDistortionFactory.use_32 f)) /\
  (forall (f : LensWideDistortionFactory.t),
     transform_precision (LensWideDistortionFactory.distort_s_to_p f) =
       flag_precision (LensWideDistortionFactory.use_32 f) /\
     transform_precision (LensWideDistortionFactory.undistort_p_to_s f) =
       flag_precision (LensWideDistortionFactory.use_32 f)) /\
  (forall (j : Java.LensDistortion) (flag : option bool),
     LensNarrowDistortionFactory.use_32
       (LensNarrowDistortionFactory.__init__ j flag) = default true flag /\
     LensWideDistortionFactory.use_32
       (LensWideDistortionFactory.__init__ j flag) = default true flag) /\
  (forall (o : pyobject) (f : LensNarrowDistortionFactory.t) (a b c d : bool),
     create_narrow_lens_distorter o = Ok f ->
     LensNarrowDistortionFactory.use_32 f = true /\
     transform_precision (LensNarrowDistortionFactory.distort f a b) = F32 /\
     transform_precision (LensNarrowDistortionFactory.undistort f c d) = F32) /\
  (forall (o : pyobject) (f : LensWideDistortionFactory.t),
     create_wide_lens_distorter o = Ok f ->
     LensWideDistortionFactory.use_32 f = true /\
     transform_precision (LensWideDistortionFactory.distort_s_to_p f) = F32 /\
     transform_precision (LensWideDistortionFactory.undistort_p_to_s f) = F32).
Proof.
  assert (Hn : forall f a b c d,
     transform_precision (LensNarrowDistortionFactory.distort f a b) =
       flag_precision (LensNarrowDistortionFactory.use_32 f) /\
     transform_precision (LensNarrowDistortionFactory.undistort f c d) =
       flag_precision (LensNarrowDistortionFactory.use_32 f)).
  { intros [j []] a b c d; split; reflexivity. }
  assert (Hw : forall f,
     transform_precision (LensWideDistortionFactory.distort_s_to_p f) =
       flag_precision (LensWideDistortionFactory.use_32 f) /\
     transform_precision (LensWideDistortionFactory.undistort_p_to_s f) =
       flag_precision (LensWideDistortionFactory.use_32 f)).
  { intros [j []]; split; reflexivity. }
  split; [exact Hn |]. split; [exact Hw |]. split; [| split].
  - intros j flag; split; reflexivity.
  - intros o f a b c d Hf. apply narrow_factory_flag in Hf.
    destruct (Hn f a b c d) as [H1 H2]. rewrite Hf in H1, H2. auto.
  - intros o f Hf. apply wide_factory_flag in Hf.
    destruct (Hw f) as [H1 H2]. rewrite Hf in H1, H2. auto.
Qed.

(** The factory built for the distorted Brown model undistorts in single
    precision. *)
Lemma factory_precision_witness :
  create_narrow_lens_distorter (Obj_CameraBrown distorted_brown) =
    Ok (LensNarrowDistortionFactory.__init__
          (Java.LensDistortionPinhole
             (Java.Brown (Java.mkBrown Java.zero_pinhole (Some [0.5%float])
                                       0%float 0%float)))
          None) /\
  transform_precision
    (LensNarrowDistortionFactory.undistort
       (LensNarrowDistortionFactory.__init__
          (Java.LensDistortionPinhole
             (Java.Brown (Java.mkBrown Java.zero_pinhole (Some [0.5%float])
                                       0%float 0%float)))
          None) true true) = F32.
Proof.
  split; [vm_compute; reflexivity |].
  eapply (proj1 (proj2 (proj2 (proj2 factory_precision)))
            (Obj_CameraBrown distorted_brown) _ true true true true).
  vm_compute; reflexivity.
Defined.

(** ** Calibration front ends *)

Lemma add_images_spec (observations : list observation)
    (j : JavaCalib.CalibrateMonoPlanar) :
  add_images j observations =
    JavaCalib.mkMono (JavaCalib.mono_layout j) (JavaCalib.mono_config j)
      (JavaCalib.mono_images j ++
       map convert_into_boof_calibration_observations observations).
Proof.
  unfold add_images. revert j.
  induction observations as [| o os IH]; intros j; simpl.
  - rewrite app_nil_r. destruct j; reflexivity.
  - rewrite IH. simpl. rewrite <- app_assoc. reflexivity.
Qed.

(** C4: [calibrate_universal] hands the solver a calibrator configured for
    the Universal Omni model with the mirror offset left to be estimated
    when [mirror_offset] is [None], and fixed to [float(mirror_offset)]
    when a value is supplied; the images are those of [observations], in
    order. (The layout accessor is assumed to return; a supplied value is
    assumed to convert to a float.) *)
Theorem calibrate_universal_mirror_offset
    (process : JavaCalib.CalibrateMonoPlanar -> result Java.camera)
    (getErrors : JavaCalib.CalibrateMonoPlanar -> list JavaCalib.ImageResults)
    (observations : list observation) (d : detector) (num_radial : Z)
    (tangential zero_skew : bool) (jlayout : JavaCalib.layout) :
  getLayout d = Ok jlayout ->
  calibrate_universal process getErrors observations d num_radial tangential
                      zero_skew None =
    finish_universal process getErrors
      (JavaCalib.mkMono jlayout
         (Some (JavaCalib.UniversalOmni zero_skew num_radial tangential
                                        JavaCalib.Estimated))
         (map convert_into_boof_calibration_observations observations)) /\
  (forall (m : pynum) (x : float),
     py_float m = Ok x ->
     calibrate_universal process getErrors observations d num_radial tangential
                         zero_skew (Some m) =
       finish_universal process getErrors
         (JavaCalib.mkMono jlayout
            (Some (JavaCalib.UniversalOmni zero_skew num_radial tangential
                                           (JavaCalib.Fixed x)))
            (map convert_into_boof_calibration_observations observations))).
Proof.
  intros Hl. unfold calibrate_universal, universal_calibrator.
  rewrite Hl. simpl. split.
  - rewrite add_images_spec. reflexivity.
  - intros m x Hm. rewrite Hm. simpl. rewrite add_images_spec. reflexivity.
Qed.

(** A call with [mirror_offset=1]: the solver gets the offset fixed at
    [1.0]. *)
Lemma calibrate_universal_mirror_offset_witness :
  getLayout sample_detector = Ok [(0%float, 0%float)] /\
  py_float (PyInt 1) = Ok 1%float /\
  calibrate_universal sample_process sample_errors [sample_observation]
                      sample_detector 2 true true (Some (PyInt 1)) =
    finish_universal sample_process sample_errors
      (JavaCalib.mkMono [(0%float, 0%float)]
         (Some (JavaCalib.UniversalOmni true 2 true (JavaCalib.Fixed 1%float)))
         (map convert_into_boof_calibration_observations [sample_observation])).
Proof.
  split; [reflexivity |]. split; [vm_compute; reflexivity |].
  apply (proj2 (calibrate_universal_mirror_offset sample_process sample_errors
                  [sample_observation] sample_detector 2 true true
                  [(0%float, 0%float)] eq_refl)).
  vm_compute; reflexivity.
Defined.

Lemma getitem_lookup {A : Type} (l : list A) (idx : nat) (x : A) :
  l !! idx = Some x -> getitem l idx = Ok x.
Proof. unfold getitem. intros ->. reflexivity. Qed.

Lemma getitem_out_of_range {A : Type} (l : list A) (idx : nat) :
  (length l <= idx)%nat ->
  getitem l idx = Err (IndexError "list index out of range").
Proof.
  intros H. unfold getitem. rewrite (lookup_ge_None_2 l idx H). reflexivity.
Qed.

(** The loop over [k, k+1, ..., k+n-1] when both lists reach that far: it
    appends the converted pairs [(left[i], right[i])] in order. *)
Lemma add_pairs_in_range (n k : nat) (left right : list observation)
    (j : JavaCalib.CalibrateStereoPlanar) :
  (k + n <= length left)%nat -> (k + n <= length right)%nat ->
  add_pairs (seq k n) left right j =
    Ok (JavaCalib.mkStereo (JavaCalib.stereo_layout j) (JavaCalib.stereo_config j)
          (JavaCalib.stereo_pairs j ++
           zip (map convert_into_boof_calibration_observations (take n (drop k left)))
               (map convert_into_boof_calibration_observations
                    (take n (drop k right))))).
Proof.
  revert k j. induction n as [| n IH]; intros k j Hl Hr; simpl.
  - rewrite app_nil_r. destruct j; reflexivity.
  - destruct (lookup_lt_is_Some_2 left k ltac:(lia)) as [x Hx].
    destruct (lookup_lt_is_Some_2 right k ltac:(lia)) as [y Hy].
    rewrite (getitem_lookup _ _ _ Hx), (getitem_lookup _ _ _ Hy). simpl.
    rewrite IH by (simpl; lia). simpl.
    rewrite (drop_S _ _ _ Hx), (drop_S _ _ _ Hy). simpl.
    rewrite <- app_assoc. reflexivity.
Qed.

(** The loop when the right list ends inside [k .. k+n-1]: the lookup
    [observations_right[idx]] raises. *)
Lemma add_pairs_right_short (n k : nat) (left right : list observation)
    (j : JavaCalib.CalibrateStereoPlanar) :
  (k + n <= length left)%nat -> (k <= length right < k + n)%nat ->
  add_pairs (seq k n) left right j =
    Err (IndexError "list index out of range").
Proof.
  revert k j. induction n as [| n IH]; intros k j Hl Hr; simpl; [lia |].
  destruct (lookup_lt_is_Some_2 left k ltac:(lia)) as [x Hx].
  rewrite (getitem_lookup _ _ _ Hx). simpl.
  destruct (decide (k < length right)%nat) as [Hlt | Hge].
  - destruct (lookup_lt_is_Some_2 right k Hlt) as [y Hy].
    rewrite (getitem_lookup _ _ _ Hy). simpl.
    apply IH; lia.
  - rewrite getitem_out_of_range by lia. reflexivity.
Qed.

(** C10: [calibrate_stereo] pairs the observations by list position. When
    the right list is at least as long as the left one, the solver gets
    exactly [len(observations_left)] pairs, the [i]-th made of the [i]-th
    left and [i]-th right observation, and the right observations beyond
    that count do not matter; when the right list is shorter, the call
    raises [IndexError] and the solver is not run. (The layout accessor is
    assumed to return.) *)
Theorem calibrate_stereo_pairs_by_position
    (process_stereo :
       JavaCalib.CalibrateStereoPlanar -> result JavaCalib.StereoParameters)
    (computeErrors :
       JavaCalib.CalibrateStereoPlanar -> list JavaCalib.ImageResults)
    (observations_left observations_right : list observation) (d : detector)
    (num_radial : Z) (tangential zero_skew : bool) (jlayout : JavaCalib.layout) :
  getLayout_at d 0 = Ok jlayout ->
  ((length observations_left <= length observations_right)%nat ->
   let pairs :=
     zip (map convert_into_boof_calibration_observations observations_left)
         (map convert_into_boof_calibration_observations
              (take (length observations_left) observations_right)) in
   calibrate_stereo process_stereo computeErrors observations_left
                    observations_right d num_radial tangential zero_skew =
     finish_stereo process_stereo computeErrors
       (JavaCalib.mkStereo jlayout (Some (zero_skew, num_radial, tangential))
                           pairs) /\
   length pairs = length observations_left /\
   calibrate_stereo process_stereo computeErrors observations_left
                    observations_right d num_radial tangential zero_skew =
     calibrate_stereo process_stereo computeErrors observations_left
                      (take (length observations_left) observations_right)
                      d num_radial tangential zero_skew) /\
  ((length observations_right < length observations_left)%nat ->
   calibrate_stereo process_stereo computeErrors observations_left
                    observations_right d num_radial tangential zero_skew =
     Err (IndexError "list index out of range")).
Proof.
  intros Hd.
  assert (Hok : forall right,
     (length observations_left <= length right)%nat ->
     calibrate_stereo process_stereo computeErrors observations_left right d
                      num_radial tangential zero_skew =
     finish_stereo process_stereo computeErrors
       (JavaCalib.mkStereo jlayout (Some (zero_skew, num_radial, tangential))
          (zip (map convert_into_boof_calibration_observations observations_left)
               (map convert_into_boof_calibration_observations
                    (take (length observations_left) right))))).
  { intros right Hle. unfold calibrate_stereo, stereo_calibrator.
    rewrite Hd. simpl.
    rewrite add_pairs_in_range by (simpl; lia). simpl.
    rewrite !drop_0, firstn_all. reflexivity. }
  split.
  - intros Hle pairs. split; [apply Hok; exact Hle |]. split.
    + subst pairs. rewrite length_zip_with, !length_map, length_take. lia.
    + rewrite Hok by exact Hle.
      rewrite Hok by (rewrite length_take; lia).
      rewrite take_take. rewrite Nat.min_id. reflexivity.
  - intros Hlt. unfold calibrate_stereo, stereo_calibrator.
    rewrite Hd. simpl.
    rewrite add_pairs_right_short by (simpl; lia). reflexivity.
Qed.

(** One left and two right observations: the second right one is ignored.
    Two left and one right observation: [IndexError]. *)
Lemma calibrate_stereo_pairs_by_position_witness :
  getLayout_at sample_detector 0 = Ok [(0%float, 0%float)] /\
  (length [sample_observation] <= length [sample_observation; other_observation])%nat /\
  calibrate_stereo sample_process_stereo sample_errors_stereo
    [sample_observation] [sample_observation; other_observation]
    sample_detector 4 false true =
  calibrate_stereo sample_process_stereo sample_errors_stereo
    [sample_observation] [sample_observation]
    sample_detector 4 false true /\
  (length [sample_observation] < length [sample_observation; other_observation])%nat /\
  calibrate_stereo sample_process_stereo sample_errors_stereo
    [sample_observation; other_observation] [sample_observation]
    sample_detector 4 false true =
  Err (IndexError "list index out of range").
Proof.
  split; [reflexivity |]. split; [simpl; lia |]. split.
  - apply (proj1 (calibrate_stereo_pairs_by_position sample_process_stereo
                    sample_errors_stereo [sample_observation]
                    [sample_observation; other_observation] sample_detector
                    4 false true [(0%float, 0%float)] eq_refl)).
    simpl; lia.
  - split; [simpl; lia |].
    apply (proj2 (calibrate_stereo_pairs_by_position sample_process_stereo
                    sample_errors_stereo [sample_observation; other_observation]
                    [sample_observation] sample_detector
                    4 false true [(0%float, 0%float)] eq_refl)).
    simpl; lia.
Defined.

(** ** Frame of [remove_distortion] *)

Section Keeps.

Variable h0 : heap.

Lemma keeps_ret {A : Type} (v : A) : keeps h0 (py_ret v) (fun v' => v' = v).
Proof. intros h Hh. split; [exact Hh |]. simpl. intros v' [= <-]. reflexivity. Qed.

Lemma keeps_lift {A : Type} (r : result A) :
  keeps h0 (lift r) (fun v => r = Ok v).
Proof. intros h Hh. split; [exact Hh |]. simpl. auto. Qed.

Lemma keeps_bind {A B : Type} (m : py A) (k : A -> py B)
    (Q : A -> Prop) (R : B -> Prop) :
  keeps h0 m Q -> (forall v, Q v -> keeps h0 (k v) R) ->
  keeps h0 (py_bind m k) R.
Proof.
  intros Hm Hk h Hh. unfold py_bind.
  destruct (Hm h Hh) as [Hsub Hq].
  destruct (m h) as [[v | e] h1]; simpl in *.
  - apply (Hk v (Hq v eq_refl) h1 Hsub).
  - split; [exact Hsub | discriminate].
Qed.

Lemma keeps_weaken {A : Type} (m : py A) (Q Q' : A -> Prop) :
  keeps h0 m Q -> (forall v, Q v -> Q' v) -> keeps h0 m Q'.
Proof.
  intros Hm HQ h Hh. destruct (Hm h Hh) as [Hsub Hq].
  split; [exact Hsub | auto].
Qed.

(** A new object lands on a reference that [h0] does not use. *)
Lemma keeps_new_object (o : pyobject) :
  keeps h0 (new_object o) (fun l => h0 !! l = None).
Proof.
  intros h Hh. unfold new_object. simpl.
  assert (Hfresh : h0 !! fresh (dom h) = None).
  { apply not_elem_of_dom. intros Hin.
    apply (is_fresh (dom h)). revert Hin. apply subseteq_dom. exact Hh. }
  split.
  - apply insert_subseteq_r; assumption.
  - intros v [= <-]. exact Hfresh.
Qed.

Lemma keeps_deref (l : loc) : keeps h0 (deref l) (fun _ => True).
Proof.
  intros h Hh. unfold deref. destruct (h !! l); simpl; split; auto.
Qed.

Lemma keeps_store (l : loc) (i : instance) :
  h0 !! l = None -> keeps h0 (store l i) (fun _ => True).
Proof.
  intros Hl h Hh. unfold store. simpl. split; [| auto].
  apply insert_subseteq_r; assumption.
Qed.

Lemma keeps_CameraPinhole_set (self orig : loc) :
  h0 !! self = None -> keeps h0 (CameraPinhole_set self orig) (fun _ => True).
Proof.
  intros Hself. unfold CameraPinhole_set.
  eapply keeps_bind; [apply keeps_deref | intros o _].
  eapply keeps_bind; [apply keeps_lift | intros p _].
  eapply keeps_bind; [apply keeps_deref | intros s _].
  destruct (inst_obj s);
    first [ apply keeps_store; exact Hself
          | eapply keeps_weaken; [apply keeps_lift | auto] ].
Qed.

Lemma keeps_setattr_extra (obj : loc) (name : string) (v : pyval) :
  h0 !! obj = None -> keeps h0 (setattr_extra obj name v) (fun _ => True).
Proof.
  intros Hobj. unfold setattr_extra.
  eapply keeps_bind; [apply keeps_deref | intros i _].
  apply keeps_store; exact Hobj.
Qed.

Variable border_to_java : Z -> result jref.
Variable getImageType : jref -> result jref.
Variable changeCameraModel :
  AdjustmentType.java -> jref -> Java.camera -> Java.camera ->
  Java.CameraPinholeBrown -> jref -> result (jref * Java.CameraPinholeBrown).
Variable apply : jref -> jref -> jref -> result unit.

Lemma keeps_create_change_camera_model (intrinsic_orig intrinsic_desired : loc)
    (image_type : jref) (adjustment border : Z) :
  keeps h0
    (create_change_camera_model border_to_java changeCameraModel
       intrinsic_orig intrinsic_desired image_type adjustment border)
    (fun r => h0 !! r.2 = None).
Proof.
  unfold create_change_camera_model.
  eapply keeps_bind; [apply keeps_lift | intros java_adjustment _].
  eapply keeps_bind; [apply keeps_lift | intros java_border _].
  eapply keeps_bind; [apply keeps_deref | intros orig _].
  eapply keeps_bind; [apply keeps_lift | intros java_original _].
  eapply keeps_bind; [apply keeps_deref | intros desired _].
  eapply keeps_bind; [apply keeps_lift | intros java_desired _].
  eapply keeps_bind; [apply keeps_lift | intros r _].
  eapply keeps_bind; [apply keeps_new_object | intros out Hout].
  eapply keeps_weaken; [apply keeps_ret |].
  intros v ->. exact Hout.
Qed.

Lemma keeps_remove_distortion (input output : jref) (intrinsic : loc)
    (adjustment border : Z) :
  keeps h0
    (remove_distortion border_to_java getImageType changeCameraModel apply
       input output intrinsic adjustment border)
    (fun out => h0 !! out = None).
Proof.
  unfold remove_distortion.
  eapply keeps_bind; [apply keeps_lift | intros image_type _].
  eapply keeps_bind; [apply keeps_new_object | intros desired Hdesired].
  eapply keeps_bind; [apply keeps_CameraPinhole_set; exact Hdesired | intros _ _].
  eapply keeps_bind; [apply keeps_setattr_extra; exact Hdesired | intros _ _].
  eapply keeps_bind; [apply keeps_setattr_extra; exact Hdesired | intros _ _].
  eapply keeps_bind; [apply keeps_setattr_extra; exact Hdesired | intros _ _].
  eapply keeps_bind;
    [apply keeps_create_change_camera_model | intros r Hr].
  eapply keeps_bind; [apply keeps_lift | intros _ _].
  eapply keeps_weaken; [apply keeps_ret |].
  intros v ->. exact Hr.
Qed.

End Keeps.

(** C9: [remove_distortion] leaves the caller's [intrinsic] object as it
    was: after the call, normal or exceptional, the object [intrinsic]
    refers to (and every other object that existed before) has the state
    it had before; the desired model and the returned model are objects
    that did not exist before the call, so the reference returned differs
    from [intrinsic]. *)
Theorem remove_distortion_leaves_intrinsic
    (border_to_java : Z -> result jref)
    (getImageType : jref -> result jref)
    (changeCameraModel :
       AdjustmentType.java -> jref -> Java.camera -> Java.camera ->
       Java.CameraPinholeBrown -> jref -> result (jref * Java.CameraPinholeBrown))
    (apply : jref -> jref -> jref -> result unit)
    (h : heap) (input output : jref) (intrinsic : loc) (adjustment border : Z)
    (i : instance) :
  h !! intrinsic = Some i ->
  let call :=
    remove_distortion border_to_java getImageType changeCameraModel apply
                      input output intrinsic adjustment border h in
  call.2 !! intrinsic = Some i /\
  (forall (l : loc) (x : instance), h !! l = Some x -> call.2 !! l = Some x) /\
  (forall out : loc, call.1 = Ok out -> h !! out = None /\ out <> intrinsic).
Proof.
  intros Hi call.
  destruct (keeps_remove_distortion h border_to_java getImageType
              changeCameraModel apply input output intrinsic adjustment border
              h (reflexivity h)) as [Hsub Hout].
  fold call in Hsub, Hout.
  split; [| split].
  - eapply lookup_weaken; eassumption.
  - intros l x Hl. eapply lookup_weaken; eassumption.
  - intros out Hcall. specialize (Hout out Hcall). split; [exact Hout |].
    intros ->. congruence.
Qed.

(** The sample call returns the new reference [3] and leaves the camera
    at reference [1] as it was. *)
Lemma remove_distortion_leaves_intrinsic_witness :
  sample_heap !! 1%positive =
    Some (mkInstance (Obj_CameraBrown sample_camera) ∅) /\
  (remove_distortion sample_border_to_java sample_getImageType
     sample_changeCameraModel sample_apply 5%N 6%N 1%positive
     AdjustmentType.FULL_VIEW 0 sample_heap).1 = Ok 3%positive /\
  (remove_distortion sample_border_to_java sample_getImageType
     sample_changeCameraModel sample_apply 5%N 6%N 1%positive
     AdjustmentType.FULL_VIEW 0 sample_heap).2 !! 1%positive =
    Some (mkInstance (Obj_CameraBrown sample_camera) ∅).
Proof.
  split; [reflexivity |]. split; [vm_compute; reflexivity |].
  exact (proj1 (remove_distortion_leaves_intrinsic sample_border_to_java
                  sample_getImageType sample_changeCameraModel sample_apply
                  sample_heap 5%N 6%N 1%positive AdjustmentType.FULL_VIEW 0
                  (mkInstance (Obj_CameraBrown sample_camera) ∅) eq_refl)).
Defined.

(** ** String rendering *)

#[local] Arguments String.append !_ _ / : simpl nomatch.

Lemma string_app_assoc (s1 s2 s3 : string) :
  (s1 +:+ s2) +:+ s3 = s1 +:+ (s2 +:+ s3).
Proof.
  induction s1 as [| c s1 IH]; [reflexivity |].
  change (String c ((s1 +:+ s2) +:+ s3) = String c (s1 +:+ s2 +:+ s3)).
  now rewrite IH.
Qed.

Lemma prefix_app (sub s : string) :
  String.prefix sub s = true <-> exists post, s = sub +:+ post.
Proof.
  revert s. induction sub as [| c sub IH]; intros s.
  - destruct s; simpl; split; eauto.
  - destruct s as [| d s]; simpl.
    + split; [discriminate | intros [post H]; discriminate].
    + destruct (Ascii.ascii_dec c d) as [-> | Hne].
      * rewrite IH. split; intros [post H]; exists post; simpl in *; congruence.
      * split; [discriminate | intros [post H]; simpl in H; congruence].
Qed.

Lemma includesb_spec (sub s : string) :
  includesb sub s = true <-> includes s sub.
Proof.
  induction s as [| c s IH]; cbn [includesb].
  - rewrite orb_false_r, prefix_app. split.
    + intros [post H]. exists "", post. exact H.
    + intros ([| d pre] & post & H); [eauto | discriminate].
  - rewrite orb_true_iff, IH, prefix_app. split.
    + intros [[post H] | (pre & post & H)].
      * exists "", post. exact H.
      * exists (String c pre), post. simpl. congruence.
    + intros ([| d pre] & post & H).
      * left. exists post. exact H.
      * right. exists pre, post. simpl in H. congruence.
Qed.

Lemma includes_cons (c : ascii) (s sub : string) :
  includes s sub -> includes (String c s) sub.
Proof.
  intros (pre & post & ->). exists (String c pre), post. reflexivity.
Qed.

Lemma includes_skip (t s sub : string) :
  includes s sub -> includes (t +:+ s) sub.
Proof.
  intros (pre & post & ->). exists (t +:+ pre), post.
  now rewrite string_app_assoc.
Qed.

(** Brings a concatenation into right-nested form, literals unfolded. *)
Ltac normalize_text :=
  repeat first [ rewrite string_app_assoc | progress cbn [String.append] ].

(** Walks down a concatenation to the place where the text sought starts. *)
Ltac find_text :=
  first [ solve [ exists EmptyString; eexists; cbn [String.append]; reflexivity ]
        | apply includes_cons; find_text
        | apply includes_skip; find_text ].

Lemma format_f_is_ok (n : pynum) : is_ok (format_f n) = is_ok (py_float n).
Proof. unfold format_f. destruct (py_float n); reflexivity. Qed.

Lemma format_intrinsics_is_ok (p : CameraPinhole.t) :
  is_ok (CameraPinhole.format_intrinsics p) = intrinsics_format p.
Proof.
  unfold CameraPinhole.format_intrinsics, intrinsics_format.
  rewrite <- !format_f_is_ok.
  destruct (format_f (CameraPinhole.fx p)); simpl; [| reflexivity].
  destruct (format_f (CameraPinhole.fy p)); simpl; [| reflexivity].
  destruct (format_f (CameraPinhole.skew p)); simpl; [| reflexivity].
  destruct (format_f (CameraPinhole.cx p)); simpl; [| reflexivity].
  destruct (format_f (CameraPinhole.cy p)); reflexivity.
Qed.

Lemma format_intrinsics_shows (p : CameraPinhole.t) (body pre post : string) :
  CameraPinhole.format_intrinsics p = Ok body ->
  shows_intrinsics p (pre +:+ body +:+ post).
Proof.
  unfold CameraPinhole.format_intrinsics, shows_intrinsics, shows_formatted, shows.
  destruct (format_f (CameraPinhole.fx p)) as [sfx |]; simpl; [| discriminate].
  destruct (format_f (CameraPinhole.fy p)) as [sfy |]; simpl; [| discriminate].
  destruct (format_f (CameraPinhole.skew p)) as [sskew |]; simpl; [| discriminate].
  destruct (format_f (CameraPinhole.cx p)) as [scx |]; simpl; [| discriminate].
  destruct (format_f (CameraPinhole.cy p)) as [scy |]; simpl; [| discriminate].
  intros [= <-].
  repeat split;
    try (eexists; split; [reflexivity |]);
    normalize_text; find_text.
Qed.

(** Replaces the text of every list and number in the goal by a variable. *)
Ltac abstract_texts :=
  repeat match goal with
    | |- context [list_str ?r ?l] => generalize (list_str r l); intro
    | |- context [option_list_str ?r ?l] => generalize (option_list_str r l); intro
    | |- context [py_str ?r ?n] => generalize (py_str r n); intro
    end.

Lemma pinhole_str_shows (p : CameraPinhole.t) (s : string) :
  CameraPinhole.__str__ p = Ok s -> shows_intrinsics p s.
Proof.
  unfold CameraPinhole.__str__.
  destruct (CameraPinhole.format_intrinsics p) as [body |] eqn:E;
    cbn [bind]; [| discriminate].
  intros [= <-]. exact (format_intrinsics_shows p body "Pinhole{ " "}" E).
Qed.

Lemma brown_str_shows (float_repr : float -> string) (b : CameraBrown.t)
    (s : string) :
  CameraBrown.__str__ float_repr b = Ok s ->
  shows_intrinsics (CameraBrown.base b) s /\
  (CameraBrown.is_distorted b = true -> shows_distortion float_repr b s) /\
  (CameraBrown.is_distorted b = false ->
   exists body, CameraPinhole.format_intrinsics (CameraBrown.base b) = Ok body /\
                s = "Brown{ " +:+ body +:+ " }}").
Proof.
  unfold CameraBrown.__str__, shows_distortion, shows. abstract_texts.
  destruct (CameraPinhole.format_intrinsics (CameraBrown.base b)) as [body |] eqn:E;
    cbn [bind]; [| discriminate].
  destruct (CameraBrown.is_distorted b); intros [= <-].
  - split; [| split; [intros _ | discriminate]].
    + normalize_text. refine (format_intrinsics_shows _ body "Brown{ " _ E).
    + split; unfold shows; normalize_text; find_text.
  - split; [| split; [discriminate | intros _]].
    + normalize_text. refine (format_intrinsics_shows _ body "Brown{ " _ E).
    + exists body. split; [reflexivity |]. normalize_text. reflexivity.
Qed.

Lemma omni_str_shows (float_repr : float -> string) (c : CameraUniversalOmni.t)
    (s : string) :
  CameraUniversalOmni.__str__ float_repr c = Ok s ->
  shows_intrinsics (CameraBrown.base (CameraUniversalOmni.base c)) s /\
  shows_formatted s "mirror" (format_f (CameraUniversalOmni.mirror_offset c)) /\
  (CameraUniversalOmni.is_distorted c = true ->
   shows_distortion float_repr (CameraUniversalOmni.base c) s) /\
  (CameraUniversalOmni.is_distorted c = false ->
   exists body smirror,
     CameraPinhole.format_intrinsics
       (CameraBrown.base (CameraUniversalOmni.base c)) = Ok body /\
     format_f (CameraUniversalOmni.mirror_offset c) = Ok smirror /\
     s = "UniversalOmni{ " +:+ body +:+ " | mirror=" +:+ smirror +:+ "}}").
Proof.
  unfold CameraUniversalOmni.__str__, shows_distortion, shows. abstract_texts.
  destruct (CameraPinhole.format_intrinsics _) as [body |] eqn:E;
    cbn [bind]; [| discriminate].
  destruct (format_f (CameraUniversalOmni.mirror_offset c)) as [smirror |] eqn:Em;
    cbn [bind]; [| discriminate].
  destruct (CameraUniversalOmni.is_distorted c); intros [= <-].
  - split; [| split; [| split; [intros _ | discriminate]]].
    + normalize_text.
      refine (format_intrinsics_shows _ body "UniversalOmni{ " _ E).
    + exists smirror. split; [reflexivity |].
      unfold shows; normalize_text; find_text.
    + split; unfold shows; normalize_text; find_text.
  - split; [| split; [| split; [discriminate | intros _]]].
    + normalize_text.
      refine (format_intrinsics_shows _ body "UniversalOmni{ " _ E).
    + exists smirror. split; [reflexivity |].
      unfold shows; normalize_text; find_text.
    + exists body, smirror. repeat split. normalize_text. reflexivity.
Qed.

Lemma kannala_brandt_str_shows (float_repr : float -> string)
    (k : CameraKannalaBrandt.t) (s : string) :
  CameraKannalaBrandt.__str__ float_repr k = Ok s ->
  shows_intrinsics (CameraKannalaBrandt.base k) s /\
  shows_kannala_brandt float_repr k s.
Proof.
  unfold CameraKannalaBrandt.__str__, shows_kannala_brandt, shows.
  abstract_texts.
  destruct (CameraPinhole.format_intrinsics _) as [body |] eqn:E;
    cbn [bind]; [| discriminate].
  intros [= <-]. split.
  - normalize_text.
    refine (format_intrinsics_shows _ body "CameraKannalaBrandt{ " _ E).
  - repeat split; unfold shows; normalize_text; find_text.
Qed.

Lemma is_ok_bind {A B : Type} (r : result A) (k : A -> result B) :
  (forall v, is_ok (k v) = true) -> is_ok (bind r k) = is_ok r.
Proof. intros H. destruct r; simpl; auto. Qed.

Lemma str_without_floats (r1 r2 : float -> string) :
  CameraBrown.__str__ r1 CameraBrown.default =
    CameraBrown.__str__ r2 CameraBrown.default /\
  CameraBrown.__str__ r1 tangential_brown =
    CameraBrown.__str__ r2 tangential_brown.
Proof. split; vm_compute; reflexivity. Qed.

(** C6, counterexample: the rendering of the default Brown model (not
    distorted) names neither [radial] nor [t1] nor [t2]; the rendering of a
    distorted Brown model prints [t2] under the label [t1] and has no label
    [t2]. *)
Lemma brown_str_omits_distortion :
  CameraBrown.is_distorted CameraBrown.default = false /\
  CameraBrown.__str__ float_repr_unused CameraBrown.default =
    Ok "Brown{ fx=0.000000 fy=0.000000 skew=0.000000 cx=0.000000 cy=0.000000 | width=0 height=0 }}" /\
  includesb "radial="
    "Brown{ fx=0.000000 fy=0.000000 skew=0.000000 cx=0.000000 cy=0.000000 | width=0 height=0 }}"
    = false /\
  includesb "t1="
    "Brown{ fx=0.000000 fy=0.000000 skew=0.000000 cx=0.000000 cy=0.000000 | width=0 height=0 }}"
    = false /\
  includesb "t2="
    "Brown{ fx=0.000000 fy=0.000000 skew=0.000000 cx=0.000000 cy=0.000000 | width=0 height=0 }}"
    = false /\
  CameraBrown.is_distorted tangential_brown = true /\
  CameraBrown.__str__ float_repr_unused tangential_brown =
    Ok "Brown{ fx=0.000000 fy=0.000000 skew=0.000000 cx=0.000000 cy=0.000000 | width=0 height=0  | radial=None t1=0 t1=5 }" /\
  includesb "t2="
    "Brown{ fx=0.000000 fy=0.000000 skew=0.000000 cx=0.000000 cy=0.000000 | width=0 height=0  | radial=None t1=0 t1=5 }"
    = false.
Proof. repeat split; vm_compute; reflexivity. Qed.

(** C6, amended: whenever [__str__] returns (it raises only when a field
    printed with [{:f}] is an int too large for a float), the rendering
    shows fx, fy, skew, cx, cy, width and height under their labels for
    every variant; mirror under [mirror] for Universal Omni; the five
    coefficient lists under their labels for Kannala-Brandt. For Brown and
    Universal Omni it shows radial and t1 under their labels when
    [is_distorted()] is true, and when it is false the rendering ends right
    after the intrinsics (and mirror) with the closing braces, no
    distortion field being printed. *)
Theorem str_shows_model_fields (float_repr : float -> string) :
  (forall p : CameraPinhole.t,
     is_ok (CameraPinhole.__str__ p) = intrinsics_format p /\
     forall s, CameraPinhole.__str__ p = Ok s -> shows_intrinsics p s) /\
  (forall b : CameraBrown.t,
     is_ok (CameraBrown.__str__ float_repr b) =
       intrinsics_format (CameraBrown.base b) /\
     forall s, CameraBrown.__str__ float_repr b = Ok s ->
       shows_intrinsics (CameraBrown.base b) s /\
       (CameraBrown.is_distorted b = true -> shows_distortion float_repr b s) /\
       (CameraBrown.is_distorted b = false ->
        exists body,
          CameraPinhole.format_intrinsics (CameraBrown.base b) = Ok body /\
          s = "Brown{ " +:+ body +:+ " }}")) /\
  (forall c : CameraUniversalOmni.t,
     is_ok (CameraUniversalOmni.__str__ float_repr c) =
       intrinsics_format (CameraBrown.base (CameraUniversalOmni.base c)) &&
       is_ok (py_float (CameraUniversalOmni.mirror_offset c)) /\
     forall s, CameraUniversalOmni.__str__ float_repr c = Ok s ->
       shows_intrinsics (CameraBrown.base (CameraUniversalOmni.base c)) s /\
       shows_formatted s "mirror"
         (format_f (CameraUniversalOmni.mirror_offset c)) /\
       (CameraUniversalOmni.is_distorted c = true ->
        shows_distortion float_repr (CameraUniversalOmni.base c) s) /\
       (CameraUniversalOmni.is_distorted c = false ->
        exists body smirror,
          CameraPinhole.format_intrinsics
            (CameraBrown.base (CameraUniversalOmni.base c)) = Ok body /\
          format_f (CameraUniversalOmni.mirror_offset c) = Ok smirror /\
          s = "UniversalOmni{ " +:+ body +:+ " | mirror=" +:+ smirror +:+ "}}")) /\
  (forall k : CameraKannalaBrandt.t,
     is_ok (CameraKannalaBrandt.__str__ float_repr k) =
       intrinsics_format (CameraKannalaBrandt.base k) /\
     forall s, CameraKannalaBrandt.__str__ float_repr k = Ok s ->
       shows_intrinsics (CameraKannalaBrandt.base k) s /\
       shows_kannala_brandt float_repr k s).
Proof.
  split; [| split; [| split]].
  - intros p. split; [| apply pinhole_str_shows].
    unfold CameraPinhole.__str__.
    rewrite is_ok_bind by reflexivity. apply format_intrinsics_is_ok.
  - intros b. split; [| apply brown_str_shows].
    unfold CameraBrown.__str__.
    rewrite is_ok_bind by (intros v; destruct (CameraBrown.is_distorted b);
                           reflexivity).
    apply format_intrinsics_is_ok.
  - intros c. split; [| apply omni_str_shows].
    unfold CameraUniversalOmni.__str__.
    rewrite <- format_intrinsics_is_ok, <- format_f_is_ok.
    destruct (CameraPinhole.format_intrinsics _); cbn [bind is_ok andb];
      [| reflexivity].
    destruct (format_f _); cbn [bind is_ok]; [| reflexivity].
    destruct (CameraUniversalOmni.is_distorted c); reflexivity.
  - intros k. split; [| apply kannala_brandt_str_shows].
    unfold CameraKannalaBrandt.__str__.
    rewrite is_ok_bind by reflexivity. apply format_intrinsics_is_ok.
Qed.

(** The rendering of the Brown model with [t2 = 5] shows its radial list
    and [t1]. *)
Lemma str_shows_model_fields_witness :
  CameraBrown.is_distorted tangential_brown = true /\
  CameraBrown.__str__ float_repr_unused tangential_brown =
    Ok "Brown{ fx=0.000000 fy=0.000000 skew=0.000000 cx=0.000000 cy=0.000000 | width=0 height=0  | radial=None t1=0 t1=5 }" /\
  shows_distortion float_repr_unused tangential_brown
    "Brown{ fx=0.000000 fy=0.000000 skew=0.000000 cx=0.000000 cy=0.000000 | width=0 height=0  | radial=None t1=0 t1=5 }".
Proof.
  split; [reflexivity |]. split; [vm_compute; reflexivity |].
  refine (proj1 (proj2 (proj2 (proj1 (proj2 (str_shows_model_fields
            float_repr_unused)) tangential_brown) _ _)) eq_refl).
  vm_compute; reflexivity.
Defined.

(** * Further properties of the module *)

(** ** Which models the build functions accept *)

(** X3: an object that is no camera model at all makes
    [create_narrow_lens_distorter] raise [RuntimeError] "Unknown camera
    model <its class>". *)
Theorem narrow_rejects_non_camera (o : pyobject) :
  isinstance o Cls_CameraPinhole = false ->
  create_narrow_lens_distorter o =
    Err (RuntimeError ("Unknown camera model " +:+ class_str (type_of o))).
Proof.
  destruct o as [c | c | c | c | m n]; try discriminate.
  intros _. reflexivity.
Qed.

(** A Python [str] is such an object. *)
Lemma narrow_rejects_non_camera_witness :
  isinstance (Obj_other "builtins" "str") Cls_CameraPinhole = false /\
  create_narrow_lens_distorter (Obj_other "builtins" "str") =
    Err (RuntimeError "Unknown camera model <class 'str'>").
Proof.
  split; [reflexivity |].
  apply (narrow_rejects_non_camera (Obj_other "builtins" "str")).
  reflexivity.
Defined.

(** X4: for a camera model whose fields convert to Java, the narrow build
    function rejects a Universal Omni model and accepts every other one,
    a Kannala-Brandt model included, always with the pinhole engine; the
    wide build function accepts Universal Omni and Kannala-Brandt models,
    each with its own engine, and rejects the others. *)
Theorem build_function_acceptance (o : pyobject) (j : Java.camera) :
  convert_to_boof o = Ok j ->
  create_narrow_lens_distorter o =
    (if isinstance o Cls_CameraUniversalOmni then Err omni_error
     else Ok (LensNarrowDistortionFactory.mk (Java.LensDistortionPinhole j) true)) /\
  create_wide_lens_distorter o =
    (if isinstance o Cls_CameraUniversalOmni
     then Ok (LensWideDistortionFactory.mk (Java.LensDistortionUniversalOmni j) true)
     else if isinstance o Cls_CameraKannalaBrandt
     then Ok (LensWideDistortionFactory.mk (Java.LensDistortionKannalaBrandt j) true)
     else Err (RuntimeError
                 ("Unknown camera model " +:+ class_str (type_of o)))).
Proof.
  intros Hj. unfold create_narrow_lens_distorter, create_wide_lens_distorter.
  destruct o as [c | c | c | c | m n]; try discriminate Hj;
    rewrite Hj; split; reflexivity.
Qed.

(** The default Kannala-Brandt model is accepted by both build functions. *)
Lemma build_function_acceptance_witness :
  convert_to_boof (Obj_CameraKannalaBrandt CameraKannalaBrandt.default) =
    Ok (Java.KannalaBrandt (Java.mkKB Java.zero_pinhole [] [] [] [] [])) /\
  create_narrow_lens_distorter
    (Obj_CameraKannalaBrandt CameraKannalaBrandt.default) =
    Ok (LensNarrowDistortionFactory.mk
          (Java.LensDistortionPinhole
             (Java.KannalaBrandt (Java.mkKB Java.zero_pinhole [] [] [] [] [])))
          true) /\
  create_wide_lens_distorter
    (Obj_CameraKannalaBrandt CameraKannalaBrandt.default) =
    Ok (LensWideDistortionFactory.mk
          (Java.LensDistortionKannalaBrandt
             (Java.KannalaBrandt (Java.mkKB Java.zero_pinhole [] [] [] [] [])))
          true).
Proof.
  split; [vm_compute; reflexivity |].
  apply (build_function_acceptance
           (Obj_CameraKannalaBrandt CameraKannalaBrandt.default)).
  vm_compute; reflexivity.
Defined.

(** X5: a camera object read from a Java model (as the calibration
    functions return it) always builds: the narrow build function returns
    a pinhole-engine factory for a Brown or pinhole object, the wide one a
    factory for a Kannala-Brandt or Universal Omni object, on the Java
    model that was read (a missing radial array is the one of the fresh
    Java object). *)
Theorem java_models_always_build :
  (forall j : Java.CameraPinholeBrown,
     create_narrow_lens_distorter (Obj_CameraBrown (CameraBrown.__init__ (Some j))) =
       Ok (LensNarrowDistortionFactory.mk
             (Java.LensDistortionPinhole
                (Java.Brown
                   (Java.mkBrown (Java.pinhole j)
                      (match Java.radial j with
                       | Some r => Some r
                       | None => Java.radial Java.new_CameraPinholeBrown
                       end)
                      (Java.t1 j) (Java.t2 j))))
             true)) /\
  (forall j : Java.CameraPinhole,
     create_narrow_lens_distorter
       (Obj_CameraPinhole (CameraPinhole.__init__ (Some j))) =
       Ok (LensNarrowDistortionFactory.mk
             (Java.LensDistortionPinhole
                (Java.Brown
                   (Java.mkBrown j (Java.radial Java.new_CameraPinholeBrown)
                      (Java.t1 Java.new_CameraPinholeBrown)
                      (Java.t2 Java.new_CameraPinholeBrown))))
             true)) /\
  (forall j : Java.CameraKannalaBrandt,
     create_wide_lens_distorter
       (Obj_CameraKannalaBrandt (CameraKannalaBrandt.__init__ (Some j))) =
       Ok (LensWideDistortionFactory.mk
             (Java.LensDistortionKannalaBrandt (Java.KannalaBrandt j)) true)) /\
  (forall j : Java.CameraUniversalOmni,
     create_wide_lens_distorter
       (Obj_CameraUniversalOmni (CameraUniversalOmni.__init__ (Some j))) =
       Ok (LensWideDistortionFactory.mk
             (Java.LensDistortionUniversalOmni
                (Java.Omni
                   (Java.mkOmni
                      (Java.mkBrown (Java.pinhole (Java.brown j))
                         (match Java.radial (Java.brown j) with
                          | Some r => Some r
                          | None =>
                              Java.radial
                                (Java.brown (Java.new_CameraUniversalOmni 0))
                          end)
                         (Java.t1 (Java.brown j)) (Java.t2 (Java.brown j)))
                      (Java.mirrorOffset j))))
             true)).
Proof.
  split; [| split; [| split]].
  - intros [[fx fy skew cx cy w h] [r |] t1 t2];
      unfold create_narrow_lens_distorter, convert_to_boof,
        CameraBrown.convert_to_boof, CameraBrown.convert_to_boof_onto;
      cbn; [rewrite double_array_round_trip |]; reflexivity.
  - intros [fx fy skew cx cy w h]. reflexivity.
  - intros [[fx fy skew cx cy w h] s r rt t tt].
    unfold create_wide_lens_distorter, convert_to_boof,
      CameraKannalaBrandt.convert_to_boof. cbn.
    rewrite !double_array_round_trip. reflexivity.
  - intros [[[fx fy skew cx cy w h] [r |] t1 t2] mirror];
      unfold create_wide_lens_distorter, convert_to_boof,
        CameraUniversalOmni.convert_to_boof, CameraBrown.convert_to_boof_onto;
      cbn; [rewrite double_array_round_trip |]; reflexivity.
Qed.

(** ** [NarrowToWideFovPtoP] *)

(** X6: the constructor of [NarrowToWideFovPtoP] builds the narrow
    distorter first, so its error wins: a Universal Omni narrow model is
    rejected whatever the wide model is. When the constructor returns, the
    narrow side is the pinhole engine and the wide side the Universal Omni
    or the Kannala-Brandt engine. *)
Theorem narrow_to_wide_engines (narrow_model wide_model : pyobject) :
  (isinstance narrow_model Cls_CameraUniversalOmni = true ->
   NarrowToWideFovPtoP.__init__ narrow_model wide_model = Err omni_error) /\
  (forall x : NarrowToWideFovPtoP.t,
     NarrowToWideFovPtoP.__init__ narrow_model wide_model = Ok x ->
     (exists m,
        ntw_narrow (NarrowToWideFovPtoP.java_obj x) = Java.LensDistortionPinhole m) /\
     (exists m,
        ntw_wide (NarrowToWideFovPtoP.java_obj x) =
          Java.LensDistortionUniversalOmni m \/
        ntw_wide (NarrowToWideFovPtoP.java_obj x) =
          Java.LensDistortionKannalaBrandt m) /\
     isinstance narrow_model Cls_CameraUniversalOmni = false /\
     (isinstance wide_model Cls_CameraUniversalOmni = true \/
      isinstance wide_model Cls_CameraKannalaBrandt = true)).
Proof.
  unfold NarrowToWideFovPtoP.__init__. split.
  - intros H. unfold create_narrow_lens_distorter. rewrite H. reflexivity.
  - intros x.
    destruct (create_narrow_lens_distorter narrow_model) as [nf |] eqn:En;
      cbn [bind]; [| discriminate].
    destruct (create_wide_lens_distorter wide_model) as [wf |] eqn:Ew;
      cbn [bind]; [| discriminate].
    intros [= <-]. cbn.
    unfold create_narrow_lens_distorter in En.
    unfold create_wide_lens_distorter in Ew.
    destruct (isinstance narrow_model Cls_CameraUniversalOmni);
      [discriminate |].
    destruct (isinstance narrow_model Cls_CameraPinhole) eqn:Hp.
    + destruct (convert_to_boof narrow_model) as [m |]; cbn in En;
        [| discriminate].
      injection En as <-.
      destruct (isinstance wide_model Cls_CameraUniversalOmni).
      * destruct (convert_to_boof wide_model) as [m' |]; cbn in Ew;
          [| discriminate].
        injection Ew as <-. cbn. eauto 10.
      * destruct (isinstance wide_model Cls_CameraKannalaBrandt);
          [| discriminate].
        destruct (convert_to_boof wide_model) as [m' |]; cbn in Ew;
          [| discriminate].
        injection Ew as <-. cbn. eauto 10.
    + destruct narrow_model; discriminate.
Qed.

(** A Brown model on the narrow side and the default Universal Omni model
    on the wide side; a Universal Omni model on the narrow side. *)
Lemma narrow_to_wide_engines_witness :
  NarrowToWideFovPtoP.__init__ (Obj_CameraBrown distorted_brown)
    (Obj_CameraUniversalOmni CameraUniversalOmni.default) =
    Ok (NarrowToWideFovPtoP.mk
          (mkNarrowToWide
             (Java.LensDistortionPinhole
                (Java.Brown (Java.mkBrown Java.zero_pinhole (Some [0.5%float])
                                          0%float 0%float)))
             (Java.LensDistortionUniversalOmni
                (Java.Omni (Java.new_CameraUniversalOmni 0))))) /\
  isinstance (Obj_CameraBrown distorted_brown) Cls_CameraUniversalOmni = false /\
  isinstance (Obj_CameraUniversalOmni CameraUniversalOmni.default)
             Cls_CameraUniversalOmni = true /\
  NarrowToWideFovPtoP.__init__
    (Obj_CameraUniversalOmni CameraUniversalOmni.default)
    (Obj_CameraUniversalOmni CameraUniversalOmni.default) = Err omni_error.
Proof.
  split; [vm_compute; reflexivity |]. split.
  - refine (proj1 (proj2 (proj2 (proj2 (narrow_to_wide_engines
              (Obj_CameraBrown distorted_brown)
              (Obj_CameraUniversalOmni CameraUniversalOmni.default)) _ _)))).
    vm_compute; reflexivity.
  - split; [reflexivity |].
    apply (proj1 (narrow_to_wide_engines
                    (Obj_CameraUniversalOmni CameraUniversalOmni.default)
                    (Obj_CameraUniversalOmni CameraUniversalOmni.default))).
    reflexivity.
Defined.

(** ** Adjustment types *)

(** X7: [adjustment_to_java] decodes exactly the three constants of
    [AdjustmentType], each to the Java value of the same name, and raises
    [RuntimeError] "Unknown type" for every other number. *)
Theorem adjustment_to_java_decodes (value : Z) :
  match adjustment_to_java value with
  | Ok j => value = adjustment_code j
  | Err e => e = RuntimeError "Unknown type" /\ (value < 0 \/ 2 < value)
  end /\
  (forall j : AdjustmentType.java, adjustment_to_java (adjustment_code j) = Ok j).
Proof.
  split.
  - unfold adjustment_to_java, AdjustmentType.NONE, AdjustmentType.FULL_VIEW,
      AdjustmentType.EXPAND.
    destruct (Z.eqb_spec value 0); [assumption |].
    destruct (Z.eqb_spec value 1); [assumption |].
    destruct (Z.eqb_spec value 2); [assumption |].
    split; [reflexivity | lia].
  - intros []; reflexivity.
Qed.

(** ** [create_change_camera_model] and [remove_distortion] *)

Lemma adjustment_to_java_unknown (value : Z) :
  value < 0 \/ 2 < value ->
  adjustment_to_java value = Err (RuntimeError "Unknown type").
Proof.
  intros H. unfold adjustment_to_java, AdjustmentType.NONE,
    AdjustmentType.FULL_VIEW, AdjustmentType.EXPAND.
  destruct (Z.eqb_spec value 0); [lia |].
  destruct (Z.eqb_spec value 1); [lia |].
  destruct (Z.eqb_spec value 2); [lia |]. reflexivity.
Qed.

(** The intrinsics of a camera object convert whenever the object does,
    to the pinhole part of the Java model. *)
Lemma convert_pinhole_part (o : pyobject) (j : Java.camera) (p : CameraPinhole.t) :
  convert_to_boof o = Ok j -> pinhole_of o = Ok p ->
  CameraPinhole.convert_to_boof_onto p = Ok (java_pinhole_of j).
Proof.
  intros Hj Hp. revert Hj.
  destruct o as [c | c | c | c | m n]; cbn in Hp |- *; try discriminate;
    injection Hp as <-.
  - unfold CameraPinhole.convert_to_boof.
    destruct (CameraPinhole.convert_to_boof_onto c) as [x |]; cbn;
      [| discriminate].
    intros [= <-]. reflexivity.
  - unfold CameraBrown.convert_to_boof, CameraBrown.convert_to_boof_onto.
    destruct (CameraPinhole.convert_to_boof_onto (CameraBrown.base c)) as [x |];
      cbn; [| discriminate].
    destruct (match CameraBrown.radial c with Some r => _ | None => _ end);
      cbn; [| discriminate].
    destruct (py_float (CameraBrown.t1 c)); cbn; [| discriminate].
    destruct (py_float (CameraBrown.t2 c)); cbn; [| discriminate].
    intros [= <-]. reflexivity.
  - unfold CameraUniversalOmni.convert_to_boof, CameraBrown.convert_to_boof_onto.
    destruct (CameraPinhole.convert_to_boof_onto
                (CameraBrown.base (CameraUniversalOmni.base c))) as [x |];
      cbn; [| discriminate].
    destruct (match CameraBrown.radial (CameraUniversalOmni.base c) with
              Some r => _ | None => _ end); cbn; [| discriminate].
    destruct (py_float (CameraBrown.t1 (CameraUniversalOmni.base c))); cbn;
      [| discriminate].
    destruct (py_float (CameraBrown.t2 (CameraUniversalOmni.base c))); cbn;
      [| discriminate].
    destruct (py_float (CameraUniversalOmni.mirror_offset c)); cbn;
      [| discriminate].
    intros [= <-]. reflexivity.
  - unfold CameraKannalaBrandt.convert_to_boof.
    destruct (CameraPinhole.convert_to_boof_onto (CameraKannalaBrandt.base c))
      as [x |]; cbn; [| discriminate].
    repeat (match goal with
            | |- context [python_to_java_double_array ?l] =>
                destruct (python_to_java_double_array l); cbn; [| discriminate]
            end).
    intros [= <-]. reflexivity.
Qed.

Lemma fresh_lookup (h : heap) : h !! fresh (dom h) = None.
Proof. apply not_elem_of_dom, is_fresh. Qed.

Section ChangeCameraModelFacts.

Variable border_to_java : Z -> result jref.
Variable getImageType : jref -> result jref.
Variable changeCameraModel :
  AdjustmentType.java -> jref -> Java.camera -> Java.camera ->
  Java.CameraPinholeBrown -> jref -> result (jref * Java.CameraPinholeBrown).
Variable apply : jref -> jref -> jref -> result unit.

(** X8: an adjustment that is none of [NONE], [FULL_VIEW], [EXPAND] makes
    [create_change_camera_model] raise [RuntimeError] "Unknown type" before
    it converts a model or calls Java: the heap is left as it was.
    [remove_distortion] raises the same error in that case, once the image
    type was read and the desired model was built from a camera object. *)
Theorem unknown_adjustment_is_rejected (h : heap) (input output : jref)
    (intrinsic intrinsic_desired : loc) (image_type : jref)
    (adjustment border : Z) :
  adjustment < 0 \/ 2 < adjustment ->
  create_change_camera_model border_to_java changeCameraModel intrinsic
    intrinsic_desired image_type adjustment border h =
    (Err (RuntimeError "Unknown type"), h) /\
  (forall (i : instance) (p : CameraPinhole.t),
     getImageType input = Ok image_type ->
     h !! intrinsic = Some i ->
     pinhole_of (inst_obj i) = Ok p ->
     remove_distortion border_to_java getImageType changeCameraModel apply
       input output intrinsic adjustment border h =
       (Err (RuntimeError "Unknown type"),
        <[fresh (dom h) := desired_instance p]> h)).
Proof.
  intros Hadj. split.
  - unfold create_change_camera_model, py_bind, lift.
    rewrite (adjustment_to_java_unknown _ Hadj). reflexivity.
  - intros i p Hit Hi Hp.
    assert (Hne : fresh (dom h) <> intrinsic).
    { intros E. pose proof (fresh_lookup h) as F. rewrite E in F. congruence. }
    unfold remove_distortion, create_change_camera_model, CameraPinhole_set,
      setattr_extra, new_object, deref, store, py_bind, lift.
    rewrite Hit. unfold heap, loc in *.
    repeat first [ rewrite lookup_insert_eq
                 | rewrite insert_insert_eq
                 | rewrite lookup_insert_ne by exact Hne
                 | rewrite Hi
                 | rewrite Hp
                 | progress cbn [inst_obj inst_extra fst snd] ].
    rewrite (adjustment_to_java_unknown _ Hadj). reflexivity.
Qed.

(** X9: what a call of [remove_distortion] that goes through does. The
    desired model handed to [changeCameraModel] is a pinhole model with
    the intrinsics of [intrinsic] and the distortion of a fresh Java
    object: the [radial], [t1] and [t2] assigned to the desired object do
    not reach Java. The call adds two objects to the heap, the desired
    model and the returned one, which is a plain [CameraPinhole] read from
    the output model that Java filled. *)
Theorem remove_distortion_result (h : heap) (input output : jref)
    (intrinsic : loc) (adjustment border : Z) (i : instance)
    (p : CameraPinhole.t) (image_type jborder distorter : jref)
    (jadjustment : AdjustmentType.java) (java_original : Java.camera)
    (java_out : Java.CameraPinholeBrown) :
  getImageType input = Ok image_type ->
  h !! intrinsic = Some i ->
  pinhole_of (inst_obj i) = Ok p ->
  adjustment_to_java adjustment = Ok jadjustment ->
  border_to_java border = Ok jborder ->
  convert_to_boof (inst_obj i) = Ok java_original ->
  changeCameraModel jadjustment jborder java_original
    (Java.Brown
       (Java.mkBrown (java_pinhole_of java_original)
          (Java.radial Java.new_CameraPinholeBrown)
          (Java.t1 Java.new_CameraPinholeBrown)
          (Java.t2 Java.new_CameraPinholeBrown)))
    Java.new_CameraPinholeBrown image_type = Ok (distorter, java_out) ->
  apply distorter input output = Ok tt ->
  let h1 := <[fresh (dom h) := desired_instance p]> h in
  remove_distortion border_to_java getImageType changeCameraModel apply
    input output intrinsic adjustment border h =
    (Ok (fresh (dom h1)),
     <[fresh (dom h1) :=
         mkInstance
           (Obj_CameraPinhole (CameraPinhole.__init__ (Some (Java.pinhole java_out))))
           ∅]> h1).
Proof.
  intros Hit Hi Hp Hadj Hb Hjo Hc Ha h1.
  assert (Hne : fresh (dom h) <> intrinsic).
  { intros E. pose proof (fresh_lookup h) as F. rewrite E in F. congruence. }
  assert (Hd : convert_to_boof
                 (Obj_CameraPinhole
                    (CameraPinhole.set (CameraPinhole.__init__ None) p)) =
               Ok (Java.Brown
                     (Java.mkBrown (java_pinhole_of java_original)
                        (Java.radial Java.new_CameraPinholeBrown)
                        (Java.t1 Java.new_CameraPinholeBrown)
                        (Java.t2 Java.new_CameraPinholeBrown)))).
  { pose proof (convert_pinhole_part _ _ _ Hjo Hp) as Hpp.
    unfold convert_to_boof, CameraPinhole.convert_to_boof.
    replace (CameraPinhole.set (CameraPinhole.__init__ None) p) with p
      by (destruct p; reflexivity).
    rewrite Hpp. reflexivity. }
  subst h1.
  unfold remove_distortion, create_change_camera_model, CameraPinhole_set,
    setattr_extra, new_object, deref, store, py_bind, lift, py_ret.
  rewrite Hit. unfold heap, loc in *.
  repeat first [ rewrite lookup_insert_eq
               | rewrite insert_insert_eq
               | rewrite lookup_insert_ne by exact Hne
               | rewrite Hi
               | rewrite Hp
               | rewrite Hadj
               | rewrite Hb
               | rewrite Hjo
               | rewrite Hd
               | rewrite Hc
               | rewrite Ha
               | progress cbn [inst_obj inst_extra fst snd] ].
  reflexivity.
Qed.

End ChangeCameraModelFacts.

(** A call with the unknown adjustment [7] on the sample heap. *)
Lemma unknown_adjustment_is_rejected_witness :
  (7 < 0 \/ 2 < 7) /\
  create_change_camera_model sample_border_to_java sample_changeCameraModel
    1%positive 1%positive 7%N 7 0 sample_heap =
    (Err (RuntimeError "Unknown type"), sample_heap) /\
  (remove_distortion sample_border_to_java sample_getImageType
     sample_changeCameraModel sample_apply 5%N 6%N 1%positive 7 0
     sample_heap).1 = Err (RuntimeError "Unknown type").
Proof.
  split; [right; reflexivity |].
  pose proof (unknown_adjustment_is_rejected sample_border_to_java
                sample_getImageType sample_changeCameraModel sample_apply
                sample_heap 5%N 6%N 1%positive 1%positive 7%N 7 0
                (or_intror eq_refl)) as [H1 H2].
  split; [exact H1 |].
  rewrite (H2 (mkInstance (Obj_CameraBrown sample_camera) ∅)
              (CameraBrown.base sample_camera) eq_refl eq_refl eq_refl).
  reflexivity.
Defined.

(** The sample call: the camera at reference [1], two new objects at [2]
    and [3], the one at [3] returned. *)
Lemma remove_distortion_result_witness :
  sample_heap !! 1%positive =
    Some (mkInstance (Obj_CameraBrown sample_camera) ∅) /\
  remove_distortion sample_border_to_java sample_getImageType
    sample_changeCameraModel sample_apply 5%N 6%N 1%positive
    AdjustmentType.FULL_VIEW 0 sample_heap =
    (Ok 3%positive,
     <[3%positive :=
         mkInstance
           (Obj_CameraPinhole
              (CameraPinhole.mk (PyFloat 500) (PyFloat 500) (PyFloat 0)
                                (PyFloat 320) (PyFloat 240) 640 480))
           ∅]>
       (<[2%positive := desired_instance (CameraBrown.base sample_camera)]>
          sample_heap)).
Proof.
  split; [reflexivity |].
  exact (remove_distortion_result sample_border_to_java sample_getImageType
           sample_changeCameraModel sample_apply sample_heap 5%N 6%N
           1%positive AdjustmentType.FULL_VIEW 0
           (mkInstance (Obj_CameraBrown sample_camera) ∅)
           (CameraBrown.base sample_camera) 7%N 0%N 9%N
           AdjustmentType.J_FULL_VIEW
           (Java.Brown
              (Java.mkBrown
                 (Java.mkPinhole 500 500 0 320 240 640 480)
                 (Some [0.5%float; 0.25%float]) 0%float 0%float))
           (Java.mkBrown (Java.mkPinhole 500 500 0 320 240 640 480)
                         None 0%float 0%float)
           eq_refl eq_refl eq_refl eq_refl eq_refl eq_refl eq_refl eq_refl).
Defined.

(** ** Calibration observations *)

Lemma convert_into_points_from (pixels : list (Z * float * float))
    (jobs : JavaCalib.CalibrationObservation) :
  fold_left (fun jobs o => let p := (o.1.2, o.2) in JavaCalib.add jobs p o.1.1)
            pixels jobs =
    JavaCalib.mkObs (JavaCalib.width jobs) (JavaCalib.height jobs)
                    (JavaCalib.points jobs ++ map java_point pixels)%list.
Proof.
  revert jobs. induction pixels as [| o pixels IH]; intros jobs; simpl.
  - rewrite app_nil_r. destruct jobs; reflexivity.
  - rewrite IH. simpl. rewrite <- app_assoc. reflexivity.
Qed.

Lemma convert_from_points_from (jlist : list ((float * float) * Z))
    (output : list (Z * float * float)) :
  fold_left (fun (output : list (Z * float * float)) o =>
               (output ++ [(o.2, o.1.1, o.1.2)])%list) jlist output =
    (output ++ map pixel_tuple jlist)%list.
Proof.
  revert output. induction jlist as [| o jlist IH]; intros output; simpl.
  - rewrite app_nil_r. reflexivity.
  - rewrite IH. rewrite <- app_assoc. reflexivity.
Qed.

(** X10: the two observation converters are inverse to each other. What
    [convert_into_boof_calibration_observations] builds has the image
    shape of the observation and one point per pixel tuple, in order, and
    [convert_from_boof_calibration_observations] reads the tuples back;
    conversely a Java observation is rebuilt from its shape and the tuples
    read from it. *)
Theorem observation_round_trip :
  (forall obs : observation,
     convert_from_boof_calibration_observations
       (convert_into_boof_calibration_observations obs) = obs_pixels obs /\
     JavaCalib.width (convert_into_boof_calibration_observations obs) =
       obs_width obs /\
     JavaCalib.height (convert_into_boof_calibration_observations obs) =
       obs_height obs /\
     length (JavaCalib.points (convert_into_boof_calibration_observations obs)) =
       length (obs_pixels obs)) /\
  (forall jobs : JavaCalib.CalibrationObservation,
     convert_into_boof_calibration_observations
       (mkObservation (JavaCalib.width jobs) (JavaCalib.height jobs)
          (convert_from_boof_calibration_observations jobs)) = jobs).
Proof.
  split.
  - intros [w h pixels].
    unfold convert_into_boof_calibration_observations,
      convert_from_boof_calibration_observations.
    cbn [obs_width obs_height obs_pixels].
    rewrite convert_into_points_from. cbn.
    rewrite convert_from_points_from. cbn.
    repeat split.
    + rewrite map_map. rewrite <- (map_id pixels) at 2.
      apply map_ext. intros [[i x] y]. reflexivity.
    + apply length_map.
  - intros [w h points].
    unfold convert_into_boof_calibration_observations,
      convert_from_boof_calibration_observations.
    cbn [obs_width obs_height obs_pixels].
    rewrite convert_into_points_from. cbn.
    rewrite convert_from_points_from. cbn.
    f_equal. rewrite map_map. rewrite <- (map_id points) at 2.
    apply map_ext. intros [[x y] i]. reflexivity.
Qed.

(** ** [calibrate_brown] and [calibrate_kannala_brandt] *)

(** X11: [calibrate_brown] and [calibrate_kannala_brandt] hand the solver a
    calibrator with the detector's layout, the configuration built from
    their arguments (zero_skew first, as the Java methods take it) and one
    image per observation, in order, an empty list included; they return
    the model read from the solver's answer and one dictionary per
    [ImageResults]. (The layout accessor is assumed to return.) *)
Theorem calibrate_solver_input
    (process : JavaCalib.CalibrateMonoPlanar -> result Java.camera)
    (getErrors : JavaCalib.CalibrateMonoPlanar -> list JavaCalib.ImageResults)
    (observations : list observation) (d : detector)
    (jlayout : JavaCalib.layout) :
  getLayout d = Ok jlayout ->
  (forall (num_radial : Z) (tangential zero_skew : bool),
     let jcalib :=
       JavaCalib.mkMono jlayout
         (Some (JavaCalib.Pinhole zero_skew num_radial tangential))
         (map convert_into_boof_calibration_observations observations) in
     calibrate_brown process getErrors observations d num_radial tangential
                     zero_skew =
       (let! jmodel := process jcalib in
        let! jbrown := as_brown jmodel in
        Ok (CameraBrown.__init__ (Some jbrown),
            map error_of (getErrors jcalib)))) /\
  (forall (num_symmetric num_asymmetric : Z) (zero_skew : bool),
     let jcalib :=
       JavaCalib.mkMono jlayout
         (Some (JavaCalib.KannalaBrandt zero_skew num_symmetric num_asymmetric))
         (map convert_into_boof_calibration_observations observations) in
     calibrate_kannala_brandt process getErrors observations d num_symmetric
                              num_asymmetric zero_skew =
       (let! jmodel := process jcalib in
        let! jkb := as_kannala_brandt jmodel in
        Ok (CameraKannalaBrandt.__init__ (Some jkb),
            map error_of (getErrors jcalib)))).
Proof.
  intros Hl. split; intros;
    unfold calibrate_brown, calibrate_kannala_brandt;
    rewrite Hl; cbn [bind]; rewrite add_images_spec; reflexivity.
Qed.

(** With no observation at all the solver is still run, on no image. *)
Lemma calibrate_solver_input_witness :
  getLayout sample_detector = Ok [(0%float, 0%float)] /\
  calibrate_brown
    (fun j => if bool_decide (JavaCalib.mono_images j = [])
              then Err (Py4JJavaError "no images")
              else Ok (Java.Brown Java.new_CameraPinholeBrown))
    sample_errors [] sample_detector 2 true true =
    Err (Py4JJavaError "no images").
Proof.
  split; [reflexivity |].
  rewrite (proj1 (calibrate_solver_input _ sample_errors [] sample_detector
                    [(0%float, 0%float)] eq_refl) 2 true true).
  reflexivity.
Defined.

(** ** What the calibration functions return *)

Lemma brown_onto_restores (j storage : Java.CameraPinholeBrown) :
  CameraBrown.convert_to_boof_onto (CameraBrown.__init__ (Some j)) storage =
    Ok (restored_brown j storage).
Proof.
  destruct j as [[fx fy skew cx cy w h] [r |] t1 t2];
    unfold CameraBrown.convert_to_boof_onto, restored_brown;
    cbn; [rewrite double_array_round_trip |]; reflexivity.
Qed.

Lemma kannala_brandt_restores (j : Java.CameraKannalaBrandt) :
  CameraKannalaBrandt.convert_to_boof (CameraKannalaBrandt.__init__ (Some j)) =
    Ok j.
Proof.
  destruct j as [[fx fy skew cx cy w h] s r rt t tt].
  unfold CameraKannalaBrandt.convert_to_boof. cbn.
  rewrite !double_array_round_trip. reflexivity.
Qed.

Lemma universal_omni_restores (j : Java.CameraUniversalOmni) :
  CameraUniversalOmni.convert_to_boof (CameraUniversalOmni.__init__ (Some j)) =
    Ok (Java.mkOmni
          (restored_brown (Java.brown j)
             (Java.brown (Java.new_CameraUniversalOmni 0)))
          (Java.mirrorOffset j)).
Proof.
  destruct j as [[[fx fy skew cx cy w h] [r |] t1 t2] m];
    unfold CameraUniversalOmni.convert_to_boof,
      CameraBrown.convert_to_boof_onto, restored_brown;
    cbn; [rewrite double_array_round_trip |]; reflexivity.
Qed.

(** X12: stereo parameters read from Java and converted back. Onto a
    storage, each camera is restored on the storage's camera of its side
    (a missing radial array leaves the storage's), and the pose is the one
    that was read; without storage the same holds on fresh Java cameras,
    and the conversion never raises. *)
Theorem stereo_round_trip (j : JavaCalib.StereoParameters) :
  (forall storage : JavaCalib.StereoParameters,
     StereoParameters.convert_to_boof_onto
       (StereoParameters.__init__ (Some j)) storage =
       Ok (JavaCalib.mkStereoParameters
             (restored_brown (JavaCalib.left j) (JavaCalib.left storage))
             (restored_brown (JavaCalib.right j) (JavaCalib.right storage))
             (JavaCalib.right_to_left j))) /\
  StereoParameters.convert_to_boof (StereoParameters.__init__ (Some j)) =
    Ok (JavaCalib.mkStereoParameters
          (restored_brown (JavaCalib.left j) Java.new_CameraPinholeBrown)
          (restored_brown (JavaCalib.right j) Java.new_CameraPinholeBrown)
          (JavaCalib.right_to_left j)).
Proof.
  assert (Honto : forall storage : JavaCalib.StereoParameters,
     StereoParameters.convert_to_boof_onto
       (StereoParameters.__init__ (Some j)) storage =
       Ok (JavaCalib.mkStereoParameters
             (restored_brown (JavaCalib.left j) (JavaCalib.left storage))
             (restored_brown (JavaCalib.right j) (JavaCalib.right storage))
             (JavaCalib.right_to_left j))).
  { intros storage.
    unfold StereoParameters.convert_to_boof_onto, StereoParameters.__init__,
      StereoParameters.set_from_boof.
    cbn [StereoParameters.left StereoParameters.right
         StereoParameters.right_to_left].
    rewrite !brown_onto_restores. reflexivity. }
  split; [exact Honto |].
  unfold StereoParameters.convert_to_boof.
  change (CameraBrown.convert_to_boof (CameraBrown.__init__ None))
    with (Ok (A := Java.CameraPinholeBrown)
            (Java.mkBrown Java.zero_pinhole
               (Java.radial Java.new_CameraPinholeBrown) 0%float 0%float)).
  cbn [bind]. rewrite Honto. reflexivity.
Qed.

(** X13: what a calibration function returns, converted back to Java, is
    the solver's answer, and there is one error dictionary per
    [ImageResults] of the solver, in order. *)
Theorem calibration_result_marshals_back
    (process : JavaCalib.CalibrateMonoPlanar -> result Java.camera)
    (getErrors : JavaCalib.CalibrateMonoPlanar -> list JavaCalib.ImageResults)
    (process_stereo :
       JavaCalib.CalibrateStereoPlanar -> result JavaCalib.StereoParameters)
    (computeErrors :
       JavaCalib.CalibrateStereoPlanar -> list JavaCalib.ImageResults)
    (d : detector) (errors : list error_dict) :
  (forall observations num_radial tangential zero_skew intrinsic,
     calibrate_brown process getErrors observations d num_radial tangential
                     zero_skew = Ok (intrinsic, errors) ->
     exists jcalib jmodel jbrown,
       process jcalib = Ok jmodel /\ as_brown jmodel = Ok jbrown /\
       errors = map error_of (getErrors jcalib) /\
       forall storage,
         CameraBrown.convert_to_boof_onto intrinsic storage =
           Ok (restored_brown jbrown storage)) /\
  (forall observations num_symmetric num_asymmetric zero_skew intrinsic,
     calibrate_kannala_brandt process getErrors observations d num_symmetric
                              num_asymmetric zero_skew = Ok (intrinsic, errors) ->
     exists jcalib jkb,
       process jcalib = Ok (Java.KannalaBrandt jkb) /\
       errors = map error_of (getErrors jcalib) /\
       CameraKannalaBrandt.convert_to_boof intrinsic = Ok jkb) /\
  (forall observations num_radial tangential zero_skew mirror_offset intrinsic,
     calibrate_universal process getErrors observations d num_radial tangential
                         zero_skew mirror_offset = Ok (intrinsic, errors) ->
     exists jcalib jomni,
       process jcalib = Ok (Java.Omni jomni) /\
       errors = map error_of (getErrors jcalib) /\
       CameraUniversalOmni.convert_to_boof intrinsic =
         Ok (Java.mkOmni
               (restored_brown (Java.brown jomni)
                  (Java.brown (Java.new_CameraUniversalOmni 0)))
               (Java.mirrorOffset jomni))) /\
  (forall observations_left observations_right num_radial tangential zero_skew
          parameters,
     calibrate_stereo process_stereo computeErrors observations_left
                      observations_right d num_radial tangential zero_skew =
       Ok (parameters, errors) ->
     exists jcalib jparameters,
       process_stereo jcalib = Ok jparameters /\
       errors = map error_of (computeErrors jcalib) /\
       forall storage,
         StereoParameters.convert_to_boof_onto parameters storage =
           Ok (JavaCalib.mkStereoParameters
                 (restored_brown (JavaCalib.left jparameters)
                                 (JavaCalib.left storage))
                 (restored_brown (JavaCalib.right jparameters)
                                 (JavaCalib.right storage))
                 (JavaCalib.right_to_left jparameters))).
Proof.
  repeat split.
  - intros observations num_radial tangential zero_skew intrinsic.
    unfold calibrate_brown.
    destruct (getLayout d) as [jlayout | e]; [| discriminate]. cbn [bind].
    set (jcalib := add_images _ _).
    destruct (process jcalib) as [jmodel | e] eqn:Hp; [| discriminate].
    cbn [bind].
    destruct (as_brown jmodel) as [jbrown | e] eqn:Hb; [| discriminate].
    cbn [bind]. intros H. injection H as <- <-.
    exists jcalib, jmodel, jbrown. repeat split; try assumption.
    intros storage. apply brown_onto_restores.
  - intros observations num_symmetric num_asymmetric zero_skew intrinsic.
    unfold calibrate_kannala_brandt.
    destruct (getLayout d) as [jlayout | e]; [| discriminate]. cbn [bind].
    set (jcalib := add_images _ _).
    destruct (process jcalib) as [jmodel | e] eqn:Hp; [| discriminate].
    cbn [bind].
    destruct jmodel as [m | m | jkb]; cbn [as_kannala_brandt bind];
      try discriminate.
    intros H. injection H as <- <-.
    exists jcalib, jkb. repeat split; try assumption.
    apply kannala_brandt_restores.
  - intros observations num_radial tangential zero_skew mirror_offset intrinsic.
    unfold calibrate_universal.
    destruct (universal_calibrator _ _ _ _ _ _) as [jcalib | e];
      [| discriminate].
    cbn [bind]. unfold finish_universal.
    destruct (process jcalib) as [jmodel | e] eqn:Hp; [| discriminate].
    cbn [bind].
    destruct jmodel as [m | jomni | m]; cbn [as_omni bind]; try discriminate.
    intros H. injection H as <- <-.
    exists jcalib, jomni. repeat split; try assumption.
    apply universal_omni_restores.
  - intros observations_left observations_right num_radial tangential
           zero_skew parameters.
    unfold calibrate_stereo.
    destruct (stereo_calibrator _ _ _ _ _ _) as [jcalib | e];
      [| discriminate].
    cbn [bind]. unfold finish_stereo.
    destruct (process_stereo jcalib) as [jparameters | e] eqn:Hp;
      [| discriminate].
    cbn [bind]. intros H. injection H as <- <-.
    exists jcalib, jparameters. repeat split; try assumption.
    intros storage.
    unfold StereoParameters.convert_to_boof_onto, StereoParameters.__init__,
      StereoParameters.set_from_boof.
    cbn [StereoParameters.left StereoParameters.right
         StereoParameters.right_to_left].
    rewrite !brown_onto_restores. reflexivity.
Qed.

Lemma calibration_result_marshals_back_witness :
  calibrate_universal sample_process sample_errors [sample_observation]
    sample_detector 2 true true None =
    Ok (CameraUniversalOmni.__init__ (Some (Java.new_CameraUniversalOmni 2)), []) /\
  exists jcalib jomni,
    sample_process jcalib = Ok (Java.Omni jomni) /\
    [] = map error_of (sample_errors jcalib) /\
    CameraUniversalOmni.convert_to_boof
      (CameraUniversalOmni.__init__ (Some (Java.new_CameraUniversalOmni 2))) =
      Ok (Java.mkOmni
            (restored_brown (Java.brown jomni)
               (Java.brown (Java.new_CameraUniversalOmni 0)))
            (Java.mirrorOffset jomni)).
Proof.
  split; [reflexivity |].
  exact (proj1 (proj2 (proj2
           (calibration_result_marshals_back sample_process sample_errors
              sample_process_stereo sample_errors_stereo sample_detector [])))
           [sample_observation] 2 true true None _ eq_refl).
Defined.

(** ** Exceptions of the conversions *)









(** ** Conversion and rendering *)




